(** * sqlizer: the [generate] command (cmd/generate.go)

    A shallow embedding of the Go code of [cmd/generate.go]: the column
    metadata rows, the SQL-to-Go type table, the row reducer
    [parseResults], the schema reader [readTable] with its two existence
    probes, and the output writer [writeTypes].

    Pure code is embedded as functions.  Code that talks to the database
    server, the file system or the standard error stream is embedded in a
    small state monad over a [World]; every external call leaves an event
    in the world's trace, and a run-time panic is an outcome of its own. *)

From Stdlib Require Import ZArith.
From stdpp Require Import gmap strings list fin_maps.

Local Open Scope string_scope.
Local Open Scope Z_scope.

(** ** Data model *)

(** [type Columns struct]: one row of INFORMATION_SCHEMA.COLUMNS.  Go [int]
    is a 64-bit integer here, kept as [Z]; pointer fields are [option]. *)
Record Columns := mkColumns {
  TableCatalog           : string;
  TableSchema            : string;
  TableName              : string;
  ColumnName             : string;
  OrdinalPosition        : Z;
  ColumnDefault          : option string;
  IsNullable             : string;
  DataType               : string;
  CharacterMaximumLength : option Z;
  CharacterOctetLength   : option Z;
  NumericPrecision       : option Z;
  NumericPrecisionRadix  : option Z;
  NumericScale           : option Z;
  DateTimePrecision      : option Z;
  CharacterSetCatalog    : option string;
  CharacterSetSchema     : option string;
  CharacterSetName       : option string;
  CollationCatalog       : option string;
  CollationSchema        : option string;
  CollationName          : option string;
  DomainCatalog          : option string;
  DomainSchema           : option string;
  DomainName             : option string
}.

(** [type DatabaseExistsRow struct] and [type TableExistsRow struct]. *)
Record DatabaseExistsRow := mkDatabaseExistsRow { DatabaseExists : bool }.
Record TableExistsRow := mkTableExistsRow { TableExists : bool }.

(** [type Attribute struct]. *)
Record Attribute := mkAttribute { Name : string; Type_ : string }.

(** [type ParsedColumns struct]; the field [TableName] of the Go struct is
    [pcTableName] here, the name being taken by [Columns]. *)
Record ParsedColumns := mkParsedColumns {
  pcTableName : string;
  Attributes  : list Attribute
}.

(** ** The type table *)

Definition mssqlVarChar  : string := "varchar".
Definition mssqlNVarChar : string := "nvarchar".
Definition mssqlChar     : string := "char".
Definition mssqlInt      : string := "int".
Definition mssqlFloat    : string := "float".
Definition mssqlBit      : string := "bit".
Definition mssqlTime     : string := "datetime".
Definition mssqlBinary   : string := "binary".

(** [var mssqlTypeMap = map[string]string{...}]. *)
Definition mssqlTypeMap : gmap string string :=
  <[mssqlVarChar  := "string"]>
  (<[mssqlNVarChar := "string"]>
  (<[mssqlChar     := "string"]>
  (<[mssqlInt      := "int64"]>
  (<[mssqlFloat    := "float64"]>
  (<[mssqlBit      := "bool"]>
  (<[mssqlTime     := "time.Time"]>
  (<[mssqlBinary   := "[]byte"]> ∅))))))).

(** The eight keys of the table. *)
Definition mssqlTypeNames : list string :=
  [mssqlVarChar; mssqlNVarChar; mssqlChar; mssqlInt;
   mssqlFloat; mssqlBit; mssqlTime; mssqlBinary].

(** ** parseResults *)

(** The attribute built in one iteration of the loop of [parseResults]:
    [attr := Attribute{Name: col.ColumnName}], then the comma-ok lookup
    that sets [attr.Type] only when the key is present. *)
Definition loopAttr (col : Columns) : Attribute :=
  let attr := {| Name := ColumnName col; Type_ := "" |} in
  match mssqlTypeMap !! DataType col with
  | Some val => {| Name := Name attr; Type_ := val |}
  | None => attr
  end.

(** One iteration of [for _, col := range c]. *)
Definition loopBody (pc : ParsedColumns) (col : Columns) : ParsedColumns :=
  let pc1 := {| pcTableName := TableName col; Attributes := Attributes pc |} in
  {| pcTableName := pcTableName pc1;
     Attributes := Attributes pc1 ++ [loopAttr col] |}.

(** [func parseResults(c []Columns) ParsedColumns], starting from the zero
    value [ParsedColumns{}]. *)
Definition parseResults (c : list Columns) : ParsedColumns :=
  fold_left loopBody c {| pcTableName := ""; Attributes := [] |}.

(** ** Errors and panics *)

(** Error numbers the file-system calls of [writeTypes] can meet. *)
Inductive Errno := EEXIST | ENOENT | EISDIR | ENOTDIR | EACCES | ENOSPC | EIO.

Definition errnoText (e : Errno) : string :=
  match e with
  | EEXIST => "file exists"
  | ENOENT => "no such file or directory"
  | EISDIR => "is a directory"
  | ENOTDIR => "not a directory"
  | EACCES => "permission denied"
  | ENOSPC => "no space left on device"
  | EIO => "input/output error"
  end.

(** Go [error] values: the result of [errors.New], the [*fs.PathError] of
    package [os], and errors made by the other packages the command calls
    (the driver, [text/template], [go/format], [imports]). *)
Inductive error :=
  | errorString (s : string)
  | PathError (op path : string) (e : Errno)
  | foreignError (pkg msg : string).

(** [errors.New]. *)
Definition errors_New (s : string) : error := errorString s.

(** The method [Error() string]. *)
Definition Error (e : error) : string :=
  match e with
  | errorString s => s
  | PathError op path no => op ++ " " ++ path ++ ": " ++ errnoText no
  | foreignError _ msg => msg
  end.

(** A call either returns or panics. *)
Inductive outcome (A : Type) :=
  | Return (a : A)
  | Panic (msg : string).
Arguments Return {A} a.
Arguments Panic {A} msg.

(** ** The world outside the program *)

(** [url.URL] as [readTable] fills it. *)
Record URL := mkURL {
  Scheme : string;
  User   : string * string;
  Host   : string
}.

(** The three statements [generate.go] sends, with their arguments. *)
Inductive query :=
  | QDatabaseExists (database : string)
  | QTableExists (table : string)
  | QColumns (database table : string).

(** The database server as the program sees it: what [sqlx.Connect]
    answers and what [db.Select] leaves in its destination slice and
    returns, for each statement. *)
Record Server := mkServer {
  connect              : string -> URL -> option error;
  selectDatabaseExists : string -> list DatabaseExistsRow * option error;
  selectTableExists    : string -> list TableExistsRow * option error;
  selectColumns        : string -> string -> list Columns * option error
}.

(** A file-system entry; a file holds its bytes. *)
Inductive node :=
  | Dir
  | File (data : string).

(** Every external call is recorded, in order. *)
Inductive event :=
  | EvConnect (driverName : string) (u : URL)
  | EvSelect (q : query)
  | EvClose
  | EvMkdir (name : string) (res : option error)
  | EvWriteFile (name data : string) (res : option error)
  | EvReadFile (name : string) (res : option error)
  | EvStderr (msg : string).

(** A fault is a failure of a file-system call that the tree of [files]
    does not explain (a missing parent directory, permissions, a full
    disk, an I/O error).  A failed write may leave bytes behind:
    [os.WriteFile] truncates, then writes. *)
Record fault := mkFault { faultErr : error; faultLeft : option string }.

(** [viper] is the configuration store; [faults] is consumed one entry
    per file-system call, [None] meaning no fault for that call. *)
Record World := mkWorld {
  viper  : gmap string string;
  server : Server;
  files  : gmap string node;
  faults : list (option fault);
  trace  : list event
}.

(** ** The monad of effectful Go code *)

Definition M (A : Type) : Type := World -> outcome A * World.

Definition ret {A} (a : A) : M A := fun w => (Return a, w).

Definition bind {A B} (m : M A) (k : A -> M B) : M B :=
  fun w =>
    match m w with
    | (Return a, w1) => k a w1
    | (Panic msg, w1) => (Panic msg, w1)
    end.

Definition panic {A} (msg : string) : M A := fun w => (Panic msg, w).

Declare Scope go_scope.
Delimit Scope go_scope with go.
Notation "'let*' x ':=' c1 'in' c2" := (bind c1 (fun x => c2))
  (at level 10, x pattern, c1 at level 100, c2 at level 200) : go_scope.
Local Open Scope go_scope.

(** [defer d] in front of [body]: [d] runs when [body] returns and also
    when it panics; the outcome is that of [body]. *)
Definition defer {A} (d : M unit) (body : M A) : M A :=
  fun w =>
    match body w with
    | (o, w1) =>
        match d w1 with
        | (Return _, w2) => (o, w2)
        | (Panic msg, w2) => (Panic msg, w2)
        end
    end.

Definition emit (e : event) : M unit :=
  fun w => (Return tt,
            {| viper := viper w; server := server w; files := files w;
               faults := faults w; trace := trace w ++ [e] |}).

Definition getWorld : M World := fun w => (Return w, w).

Definition setFiles (fs : gmap string node) : M unit :=
  fun w => (Return tt,
            {| viper := viper w; server := server w; files := fs;
               faults := faults w; trace := trace w |}).

(** Takes the fault, if any, scheduled for the current call. *)
Definition nextFault : M (option fault) :=
  fun w => (Return (mjoin (head (faults w))),
            {| viper := viper w; server := server w; files := files w;
               faults := tail (faults w); trace := trace w |}).

(** [s[i]] on a slice: a run-time panic when out of range. *)
Definition index {A} (s : list A) (i : nat) : M A :=
  match s !! i with
  | Some x => ret x
  | None => panic "runtime error: index out of range"
  end.

(** ** External calls *)

(** [fmt.Fprintf(os.Stderr, format, err.Error())] with a format that ends
    in [%s]: [prefix] is the format without that verb. *)
Definition Fprintf_Stderr (prefix : string) (e : error) : M unit :=
  emit (EvStderr (prefix ++ Error e)).

(** [viper.GetString]: the empty string for a key that is not set. *)
Definition viper_GetString (key : string) : M string :=
  let* w := getWorld in
  ret (default "" (viper w !! key)).

(** A connection handle, [*sqlx.DB]. *)
Inductive DB := mkDB (u : URL).

(** [sqlx.Connect(driverName, dataSourceName)]; the data source name
    [u.String()] is kept as the URL it is printed from. *)
Definition sqlx_Connect (driverName : string) (u : URL)
  : M (option DB * option error) :=
  let* w := getWorld in
  let* _ := emit (EvConnect driverName u) in
  match connect (server w) driverName u with
  | Some e => ret (None, Some e)
  | None => ret (Some (mkDB u), None)
  end.

(** [db.Close()]; its result is dropped by the [defer] statement. *)
Definition db_Close (db : DB) : M unit := emit EvClose.

(** [db.Select(&dest, query, args...)], one definition per statement. *)
Definition db_Select_DatabaseExists (db : DB) (database : string)
  : M (list DatabaseExistsRow * option error) :=
  let* w := getWorld in
  let* _ := emit (EvSelect (QDatabaseExists database)) in
  ret (selectDatabaseExists (server w) database).

Definition db_Select_TableExists (db : DB) (table : string)
  : M (list TableExistsRow * option error) :=
  let* w := getWorld in
  let* _ := emit (EvSelect (QTableExists table)) in
  ret (selectTableExists (server w) table).

Definition db_Select_Columns (db : DB) (database table : string)
  : M (list Columns * option error) :=
  let* w := getWorld in
  let* _ := emit (EvSelect (QColumns database table)) in
  ret (selectColumns (server w) database table).

(** [os.Mkdir(name, os.ModePerm)]: a path that exists is refused with
    EEXIST and nothing changes; otherwise a fault refuses it, or the
    directory is made. *)
Definition os_Mkdir (name : string) : M (option error) :=
  let* w := getWorld in
  let* f := nextFault in
  let res :=
    match files w !! name, f with
    | Some _, _ => Some (PathError "mkdir" name EEXIST)
    | None, Some ft => Some (faultErr ft)
    | None, None => None
    end in
  let* _ := (match res with
             | None => setFiles (<[name := Dir]> (files w))
             | Some _ => ret tt
             end) in
  let* _ := emit (EvMkdir name res) in
  ret res.

(** [os.WriteFile(name, data, os.ModePerm)]: writing over a directory is
    refused; a fault fails the call and may leave other bytes in the file;
    otherwise the file holds exactly [data]. *)
Definition os_WriteFile (name data : string) : M (option error) :=
  let* w := getWorld in
  let* f := nextFault in
  let res :=
    match files w !! name, f with
    | Some Dir, _ => Some (PathError "open" name EISDIR)
    | _, Some ft => Some (faultErr ft)
    | _, None => None
    end in
  let* _ := (match files w !! name, f with
             | Some Dir, _ => ret tt
             | _, Some ft =>
                 match faultLeft ft with
                 | Some rest => setFiles (<[name := File rest]> (files w))
                 | None => ret tt
                 end
             | _, None => setFiles (<[name := File data]> (files w))
             end) in
  let* _ := emit (EvWriteFile name data res) in
  ret res.

(** [ioutil.ReadFile(filename)]. *)
Definition ioutil_ReadFile (name : string) : M (string * option error) :=
  let* w := getWorld in
  let* f := nextFault in
  let res :=
    match files w !! name, f with
    | None, _ => ("", Some (PathError "open" name ENOENT))
    | Some Dir, _ => ("", Some (PathError "read" name EISDIR))
    | Some (File _), Some ft => ("", Some (faultErr ft))
    | Some (File data), None => (data, None)
    end in
  let* _ := emit (EvReadFile name (snd res)) in
  ret res.

(** A command with its two flags, [cmd.Flag(name).Value.String()]. *)
Record Command := mkCommand {
  flag_database : string;
  flag_table    : string
}.

(** ** The code of generate.go *)

Section Generate.

(** Library functions the command calls and this development does not
    look into.  [template_ParseFS] is the error, if any, of parsing the
    embedded [templates/generate.tmpl]; [template_Execute] is what
    executing it writes to the buffer and returns. *)
Variable strings_ToLower : string -> string.
Variable path_Join : string -> string -> string.
Variable template_ParseFS : option error.
Variable template_Execute : ParsedColumns -> string * option error.
Variable format_Source : string -> string * option error.
Variable imports_Process : string -> string -> string * option error.

(** [func checkDatabaseExists(db *sqlx.DB, cmd *cobra.Command) (bool, error)]. *)
Definition checkDatabaseExists (db : DB) (cmd : Command)
  : M (bool * option error) :=
  let* (dbExists, err) := db_Select_DatabaseExists db (flag_database cmd) in
  match err with
  | Some e => ret (false, Some e)
  | None =>
      let* row := index dbExists 0 in
      if negb (DatabaseExists row) then ret (false, None)
      else ret (true, None)
  end.

(** [func checkTableExists(db *sqlx.DB, cmd *cobra.Command) (bool, error)]. *)
Definition checkTableExists (db : DB) (cmd : Command)
  : M (bool * option error) :=
  let* (tableExists, err) := db_Select_TableExists db (flag_table cmd) in
  match err with
  | Some e => ret (false, Some e)
  | None =>
      let* row := index tableExists 0 in
      if negb (TableExists row) then ret (false, None)
      else ret (true, None)
  end.

(** The part of [readTable] that follows [defer db.Close()]. *)
Definition readTableBody (db : DB) (cmd : Command)
  : M (list Columns * option error) :=
  let* (dbExists, err) := checkDatabaseExists db cmd in
  match err with
  | Some e => ret ([], Some e)
  | None =>
      if negb dbExists
      then ret ([], Some (errors_New "databaseG does not exist"))
      else
        let* (tableExists, err) := checkTableExists db cmd in
        match err with
        | Some e => ret ([], Some e)
        | None =>
            if negb tableExists
            then ret ([], Some (errors_New "table does not exist"))
            else
              let t := flag_table cmd in
              let* (rows, err) :=
                db_Select_Columns db (flag_database cmd) t in
              match err with
              | Some e => ret ([], Some e)
              | None => ret (rows, None)
              end
        end
  end.

(** [func readTable(cmd *cobra.Command) ([]Columns, error)]. *)
Definition readTable (cmd : Command) : M (list Columns * option error) :=
  let* user := viper_GetString "server.user" in
  let* pass := viper_GetString "server.pass" in
  let* host := viper_GetString "server.host" in
  let* port := viper_GetString "server.port" in
  let u := {| Scheme := "sqlserver";
              User := (user, pass);
              Host := host ++ ":" ++ port |} in
  let* (db, err) := sqlx_Connect "mssql" u in
  match err, db with
  | Some e, _ =>
      let* _ := Fprintf_Stderr "While connecting to database server: " e in
      ret ([], Some e)
  | None, None => panic "runtime error: invalid memory address or nil pointer dereference"
  | None, Some db => defer (db_Close db) (readTableBody db cmd)
  end.

(** [func generateTypes(rows []Columns) ([]byte, error)]. *)
Definition generateTypes (rows : list Columns) : string * option error :=
  match template_ParseFS with
  | Some e => ("", Some e)
  | None =>
      let '(tmplBuff, err) := template_Execute (parseResults rows) in
      match err with
      | Some e => ("", Some e)
      | None =>
          let '(fmtBytes, err) := format_Source tmplBuff in
          match err with
          | Some e => ("", Some e)
          | None => (fmtBytes, None)
          end
      end
  end.

(** [func writeTypes(cmd *cobra.Command, fileBytes []byte) error].  The
    result of the last [os.WriteFile] is not assigned: the test that
    follows it reads [err] as [imports.Process] left it. *)
Definition writeTypes (cmd : Command) (fileBytes : string)
  : M (option error) :=
  let tLower := strings_ToLower (flag_table cmd) in
  let* err := os_Mkdir tLower in
  match err with
  | Some e =>
      let* _ := Fprintf_Stderr "While writing directory: " e in
      ret (Some e)
  | None =>
      let filePath := path_Join tLower (tLower ++ ".go") in
      let* err := os_WriteFile filePath fileBytes in
      match err with
      | Some e =>
          let* _ := Fprintf_Stderr "While writing generated code: " e in
          ret (Some e)
      | None =>
          let* (genFileBytes, err) := ioutil_ReadFile filePath in
          match err with
          | Some e =>
              let* _ := Fprintf_Stderr
                          "While opening file for imports generation: " e in
              ret (Some e)
          | None =>
              let '(formatted, err) :=
                imports_Process (tLower ++ ".go") genFileBytes in
              match err with
              | Some e =>
                  let* _ := Fprintf_Stderr "While formatting imports: " e in
                  ret (Some e)
              | None =>
                  let* _ := os_WriteFile filePath formatted in
                  match err with
                  | Some e =>
                      let* _ := Fprintf_Stderr
                                  "While writing formatted file: " e in
                      ret (Some e)
                  | None => ret None
                  end
              end
          end
      end
  end.

(** The [Run] function of [generateCmd]. *)
Definition generateCmd_Run (cmd : Command) : M unit :=
  let* (rows, err) := readTable cmd in
  match err with
  | Some e => Fprintf_Stderr "While parsing database table: " e
  | None =>
      let '(fmtBytes, err) := generateTypes rows in
      match err with
      | Some e => Fprintf_Stderr "While generating code: " e
      | None =>
          let* err := writeTypes cmd fmtBytes in
          match err with
          | Some e => Fprintf_Stderr "While writing generated code: " e
          | None => ret tt
          end
      end
  end.

End Generate.

(** ** Reference definitions taken from the specification *)

(** The type mapper as the specification words it (section 4.2): eight
    names with their output types, the empty string for any other name.
    It is compared below with the table lookup of the code. *)
Definition spec_outputType (dataType : string) : string :=
  if String.eqb dataType "varchar" then "string"
  else if String.eqb dataType "nvarchar" then "string"
  else if String.eqb dataType "char" then "string"
  else if String.eqb dataType "int" then "int64"
  else if String.eqb dataType "float" then "float64"
  else if String.eqb dataType "bit" then "bool"
  else if String.eqb dataType "datetime" then "time.Time"
  else if String.eqb dataType "binary" then "[]byte"
  else "".

(** A list of integers that is strictly increasing. *)
Fixpoint strictlyIncreasing (l : list Z) : bool :=
  match l with
  | a :: t =>
      match t with
      | b :: _ => (a <? b) && strictlyIncreasing t
      | [] => true
      end
  | [] => true
  end.

(** [attrs] is the attribute list of the rows [c] taken in strictly
    increasing order of [OrdinalPosition]. *)
Definition inOrdinalOrder (c : list Columns) (attrs : list Attribute) : Prop :=
  ∃ rs, rs ≡ₚ c
        ∧ strictlyIncreasing (OrdinalPosition <$> rs) = true
        ∧ attrs = loopAttr <$> rs.

(** ** Sample data *)

(** A row with the given table, column, position and SQL type; the other
    columns of the view are left at their zero values. *)
Definition sampleRow (table column : string) (pos : Z) (dataType : string)
  : Columns :=
  mkColumns "db" "dbo" table column pos None "NO" dataType
            None None None None None None
            None None None None None None None None None.

(** Two rows of one table, handed over with the second column first. *)
Definition rowsOutOfOrder : list Columns :=
  [sampleRow "Users" "Name" 2 "varchar"; sampleRow "Users" "Id" 1 "int"].

(** The three columns of the table [Users] of the specification's
    end-to-end scenario, in ordinal order. *)
Definition rowsUsers : list Columns :=
  [sampleRow "Users" "Id" 1 "int";
   sampleRow "Users" "Name" 2 "varchar";
   sampleRow "Users" "CreatedAt" 3 "datetime"].

(** The URL [readTable] builds from the configuration of a world. *)
Definition configURL (w : World) : URL :=
  {| Scheme := "sqlserver";
     User := (default "" (viper w !! "server.user"),
              default "" (viper w !! "server.pass"));
     Host := default "" (viper w !! "server.host") ++ ":" ++
             default "" (viper w !! "server.port") |}.

(** A world that differs from [w] by the events [evs] added to its trace. *)
Definition withEvents (w : World) (evs : list event) : World :=
  {| viper := viper w; server := server w; files := files w;
     faults := faults w; trace := (trace w ++ evs)%list |}.

(** [strings.ToLower] on ASCII text. *)
Definition lowerAscii (c : Ascii.ascii) : Ascii.ascii :=
  let n := Ascii.nat_of_ascii c in
  if (Nat.leb 65 n && Nat.leb n 90)%bool
  then Ascii.ascii_of_nat (n + 32) else c.

Fixpoint asciiToLower (s : string) : string :=
  match s with
  | EmptyString => EmptyString
  | String c t => String (lowerAscii c) (asciiToLower t)
  end.

(** [path.Join] on two clean, non-empty elements. *)
Definition joinTwo (dir name : string) : string := dir ++ "/" ++ name.

(** Stand-ins for the template and the two source-rewriting passes. *)
Definition sampleExecute (pc : ParsedColumns) : string * option error :=
  ("package " ++ asciiToLower (pcTableName pc), None).

Definition sampleFormat (src : string) : string * option error := (src, None).

Definition sampleImports (filename src : string) : string * option error :=
  (src ++ "; import time", None).


(** Servers: one that has the database and the table [Users], one
    without the database, one without the table, and one whose probes
    succeed with no row at all. *)
Definition serverUsers : Server :=
  {| connect := λ _ _, None;
     selectDatabaseExists := λ _, ([mkDatabaseExistsRow true], None);
     selectTableExists := λ _, ([mkTableExistsRow true], None);
     selectColumns := λ _ _, (rowsUsers, None) |}.

Definition serverNoDatabase : Server :=
  {| connect := λ _ _, None;
     selectDatabaseExists := λ _, ([mkDatabaseExistsRow false], None);
     selectTableExists := λ _, ([mkTableExistsRow false], None);
     selectColumns := λ _ _, ([], None) |}.

Definition serverNoTable : Server :=
  {| connect := λ _ _, None;
     selectDatabaseExists := λ _, ([mkDatabaseExistsRow true], None);
     selectTableExists := λ _, ([mkTableExistsRow false], None);
     selectColumns := λ _ _, ([], None) |}.

Definition serverNoRows : Server :=
  {| connect := λ _ _, None;
     selectDatabaseExists := λ _, ([], None);
     selectTableExists := λ _, ([], None);
     selectColumns := λ _ _, ([], None) |}.

Definition sampleViper : gmap string string :=
  <["server.host" := "localhost"]>
  (<["server.port" := "1433"]>
  (<["server.user" := "sa"]>
  (<["server.pass" := "secret"]> ∅))).

Definition sampleCmd : Command :=
  {| flag_database := "Shop"; flag_table := "Users" |}.

(** A world with the given server, files and faults, and nothing traced. *)
Definition sampleWorld (srv : Server) (fs : gmap string node)
    (fl : list (option fault)) : World :=
  {| viper := sampleViper; server := srv; files := fs;
     faults := fl; trace := [] |}.

(** The directory [users] is there already, with a file in it. *)
Definition filesWithUsers : gmap string node :=
  <["users" := Dir]> (<["users/users.go" := File "package old"]> ∅).

(** The disk fills up at the fourth file-system call, the rewrite of the
    file; the truncated file is left empty. *)
Definition faultsDiskFull : list (option fault) :=
  [None; None; None;
   Some {| faultErr := PathError "write" "users/users.go" ENOSPC;
           faultLeft := Some "" |}].

(** What a probe function makes of the answer of [db.Select]: the error
    is passed on, a first row is read, and no row at all is a panic. *)
Definition probeOutcome {R : Type} (flag : R → bool)
    (answer : list R * option error) : outcome (bool * option error) :=
  match answer with
  | (_, Some e) => Return (false, Some e)
  | ([], None) => Panic "runtime error: index out of range"
  | (row :: _, None) => Return (flag row, None)
  end.

(** The table [Users] is there, nothing is on disk yet, and the disk
    fills up while the file is rewritten. *)
Definition worldDiskFull : World :=
  sampleWorld serverUsers ∅ faultsDiskFull.

(** The events that are calls to the file system. *)
Definition fsEvent (ev : event) : bool :=
  match ev with
  | EvMkdir _ _ | EvWriteFile _ _ _ | EvReadFile _ _ => true
  | _ => false
  end.

(** A server that refuses the connection, and one whose column query
    fails after both probes have passed. *)
Definition serverDown : Server :=
  {| connect := λ _ _, Some (foreignError "mssql" "connection refused");
     selectDatabaseExists := λ _, ([], None);
     selectTableExists := λ _, ([], None);
     selectColumns := λ _ _, ([], None) |}.

Definition serverColumnsFail : Server :=
  {| connect := λ _ _, None;
     selectDatabaseExists := λ _, ([mkDatabaseExistsRow true], None);
     selectTableExists := λ _, ([mkTableExistsRow true], None);
     selectColumns := λ _ _,
       (rowsUsers, Some (foreignError "mssql" "Invalid object name")) |}.

(** The events that send the column query. *)
Definition columnsQuery (ev : event) : bool :=
  match ev with
  | EvSelect (QColumns _ _) => true
  | _ => false
  end.

(** A world whose server refuses the connection. *)
Definition worldDown : World := sampleWorld serverDown ∅ [].

(** Two rows for one column of one table that differ in schema,
    position, nullability and SQL type, both types being unmapped. *)
Definition rowGeometry : Columns :=
  mkColumns "db" "dbo" "Places" "Shape" 1 None "NO" "geometry"
            None None None None None None
            None None None None None None None None None.

Definition rowXml : Columns :=
  mkColumns "db" "audit" "Places" "Shape" 7 (Some "NULL") "YES" "xml"
            (Some (-1)) (Some (-1)) None None None None
            None None None None None None None None None.

(** The events that write to standard error. *)
Definition stderrEvent (ev : event) : bool :=
  match ev with
  | EvStderr _ => true
  | _ => false
  end.

(** The events a run has added to the trace of the world [w] it
    started from, [w'] being the world it ended in. *)
Definition newEvents (w w' : World) : list event :=
  drop (length (trace w)) (trace w').

(** * Properties of parseResults *)

Lemma fold_loopBody_Attributes (c : list Columns) (pc : ParsedColumns) :
  Attributes (fold_left loopBody c pc) = (Attributes pc ++ (loopAttr <$> c))%list.
Proof.
  revert pc. induction c as [|col c IH]; intros pc; simpl.
  - by rewrite app_nil_r.
  - rewrite IH. simpl. by rewrite <- app_assoc.
Qed.

Lemma parseResults_Attributes (c : list Columns) :
  Attributes (parseResults c) = loopAttr <$> c.
Proof. unfold parseResults. by rewrite fold_loopBody_Attributes. Qed.

Lemma mssqlTypeMap_other (k : string) :
  k ∉ mssqlTypeNames → mssqlTypeMap !! k = None.
Proof.
  unfold mssqlTypeNames, mssqlTypeMap. intros Hk.
  repeat (rewrite lookup_insert_ne;
          [| intros <-; apply Hk; rewrite !elem_of_cons; tauto]).
  apply lookup_empty.
Qed.

Lemma lookup_matches_spec (k : string) :
  default "" (mssqlTypeMap !! k) = spec_outputType k.
Proof.
  unfold spec_outputType.
  repeat match goal with
         | |- context [String.eqb k ?s] =>
             destruct (String.eqb_spec k s) as [-> | ?];
             [vm_compute; reflexivity |]
         end.
  rewrite mssqlTypeMap_other; [reflexivity |].
  unfold mssqlTypeNames, mssqlVarChar, mssqlNVarChar, mssqlChar, mssqlInt,
    mssqlFloat, mssqlBit, mssqlTime, mssqlBinary.
  repeat (apply not_elem_of_cons; split; [assumption |]).
  apply not_elem_of_nil.
Qed.

Lemma loopAttr_spec (col : Columns) :
  loopAttr col =
  {| Name := ColumnName col; Type_ := spec_outputType (DataType col) |}.
Proof.
  unfold loopAttr. rewrite <- lookup_matches_spec.
  by destruct (mssqlTypeMap !! DataType col).
Qed.

(** C1. For every list of rows, [parseResults] yields one attribute per
    row, in the order of the rows: its [Name] is the row's column name
    and its [Type] is the output type the specification gives for the
    row's [DataType] (string, string, string, int64, float64, bool,
    time.Time, []byte for the eight mapped names, the empty string for
    any other name).  Being a total function into [ParsedColumns], it
    raises no error. *)
Theorem parseResults_maps_types (c : list Columns) :
  Attributes (parseResults c) =
  (λ col, {| Name := ColumnName col;
             Type_ := spec_outputType (DataType col) |}) <$> c.
Proof.
  rewrite parseResults_Attributes.
  apply list_fmap_ext. intros _ col _. apply loopAttr_spec.
Qed.

Lemma Name_loopAttr (col : Columns) : Name (loopAttr col) = ColumnName col.
Proof. unfold loopAttr. by destruct (mssqlTypeMap !! DataType col). Qed.

Lemma Name_loopAttr_fmap (l : list Columns) :
  Name <$> (loopAttr <$> l) = ColumnName <$> l.
Proof.
  rewrite <- list_fmap_compose.
  apply list_fmap_ext. intros _ col _. apply Name_loopAttr.
Qed.

(** A permutation of a list that agrees with it on a key which is free of
    duplicates is the list itself. *)
Lemma Permutation_same_keys {A K : Type} (f : A → K) (l1 l2 : list A) :
  l1 ≡ₚ l2 → NoDup (f <$> l2) → f <$> l1 = f <$> l2 → l1 = l2.
Proof.
  revert l2. induction l1 as [|a l1 IH]; intros l2 Hp Hnd Hf.
  - by apply Permutation_nil_l in Hp.
  - destruct l2 as [|b l2]; [by apply Permutation_nil_r in Hp |].
    simpl in Hf. injection Hf as Hab Hf.
    apply NoDup_cons in Hnd as [Hb Hnd].
    assert (Ha : a ∈ b :: l2) by (rewrite <- Hp; left).
    apply elem_of_cons in Ha as [-> | Ha].
    + f_equal. apply IH; [| done | done].
      by apply (Permutation_cons_inv Hp).
    + exfalso. apply Hb. rewrite <- Hab. by apply list_elem_of_fmap_2.
Qed.

(** The example rows are rows of one table with distinct positions and
    distinct column names. *)
Lemma rowsOutOfOrder_one_table :
  Forall (λ col, TableName col = "Users") rowsOutOfOrder
  ∧ NoDup (OrdinalPosition <$> rowsOutOfOrder)
  ∧ NoDup (ColumnName <$> rowsOutOfOrder).
Proof.
  split; [| split].
  - repeat constructor.
  - compute_done.
  - compute_done.
Qed.

(** C2, as the claim states it, fails.  The two rows of [Users] are rows
    of one table with distinct positions, given with position 2 before
    position 1; the attributes come out as [Name, Id], the order of the
    input, which is not their order by [OrdinalPosition]. *)
Lemma parseResults_not_sorted_counterexample :
  Forall (λ col, TableName col = "Users") rowsOutOfOrder
  ∧ NoDup (OrdinalPosition <$> rowsOutOfOrder)
  ∧ Attributes (parseResults rowsOutOfOrder) =
      [ {| Name := "Name"; Type_ := "string" |};
        {| Name := "Id"; Type_ := "int64" |} ]
  ∧ ¬ inOrdinalOrder rowsOutOfOrder (Attributes (parseResults rowsOutOfOrder)).
Proof.
  destruct rowsOutOfOrder_one_table as (Ht & Ho & Hn).
  split; [exact Ht |]. split; [exact Ho |].
  split; [vm_compute; reflexivity |].
  intros (rs & Hp & Hs & Ha).
  rewrite parseResults_Attributes in Ha.
  assert (Hrs : rs = rowsOutOfOrder).
  { apply (Permutation_same_keys ColumnName); [done | done |].
    by rewrite <- !Name_loopAttr_fmap, Ha. }
  subst rs. vm_compute in Hs. discriminate Hs.
Qed.

(** C2, amended.  [parseResults] keeps the order of its input: the
    attribute at index [i] is the one built from the row at index [i].
    Hence, for rows with distinct column names (the rows of one table),
    the attributes are in strictly increasing order of
    [OrdinalPosition] exactly when the input rows already are. *)
Theorem parseResults_keeps_input_order (c : list Columns) :
  NoDup (ColumnName <$> c) →
  Attributes (parseResults c) = loopAttr <$> c
  ∧ (inOrdinalOrder c (Attributes (parseResults c))
     ↔ strictlyIncreasing (OrdinalPosition <$> c) = true).
Proof.
  intros Hnd. split; [apply parseResults_Attributes |].
  rewrite parseResults_Attributes. split.
  - intros (rs & Hp & Hs & Ha).
    assert (Hrs : rs = c); [| by subst rs].
    apply (Permutation_same_keys ColumnName); [done | done |].
    by rewrite <- !Name_loopAttr_fmap, Ha.
  - intros Hs. by exists c.
Qed.

Lemma parseResults_keeps_input_order_witness :
  NoDup (ColumnName <$> rowsUsers)
  ∧ Attributes (parseResults rowsUsers) = loopAttr <$> rowsUsers
  ∧ (inOrdinalOrder rowsUsers (Attributes (parseResults rowsUsers))
     ↔ strictlyIncreasing (OrdinalPosition <$> rowsUsers) = true).
Proof.
  assert (Hnd : NoDup (ColumnName <$> rowsUsers)).
  { compute_done. }
  split; [exact Hnd |].
  apply (parseResults_keeps_input_order rowsUsers Hnd).
Defined.

(** The end-to-end scenarios of the specification: the table [Users],
    and a column of the unmapped type [xml]. *)
Example parseResults_Users :
  parseResults rowsUsers =
  {| pcTableName := "Users";
     Attributes := [ {| Name := "Id"; Type_ := "int64" |};
                     {| Name := "Name"; Type_ := "string" |};
                     {| Name := "CreatedAt"; Type_ := "time.Time" |} ] |}.
Proof. vm_compute. reflexivity. Qed.

Example parseResults_xml :
  parseResults [sampleRow "Docs" "Body" 1 "xml"] =
  {| pcTableName := "Docs";
     Attributes := [ {| Name := "Body"; Type_ := "" |} ] |}.
Proof. vm_compute. reflexivity. Qed.

(** C9. For every non-empty list of rows, written [c ++ [col]] with [col]
    the row processed last, the table name of the result of
    [parseResults] is the table name of [col]. *)
Theorem parseResults_TableName_last (c : list Columns) (col : Columns) :
  pcTableName (parseResults (c ++ [col])) = TableName col.
Proof.
  unfold parseResults. by rewrite fold_left_app.
Qed.

(** * Properties of the schema reader *)

Local Arguments String.append : simpl never.

Lemma withEvents_withEvents (w : World) (evs1 evs2 : list event) :
  withEvents (withEvents w evs1) evs2 = withEvents w (evs1 ++ evs2).
Proof. unfold withEvents. simpl. by rewrite <- app_assoc. Qed.

Lemma checkDatabaseExists_run (db : DB) (cmd : Command) (w : World) :
  checkDatabaseExists db cmd w =
  (probeOutcome DatabaseExists
     (selectDatabaseExists (server w) (flag_database cmd)),
   withEvents w [EvSelect (QDatabaseExists (flag_database cmd))]).
Proof.
  unfold checkDatabaseExists, db_Select_DatabaseExists, bind, getWorld,
    emit, ret, withEvents. simpl.
  destruct (selectDatabaseExists (server w) (flag_database cmd))
    as [[|row rows] [e|]]; simpl; try reflexivity.
  by destruct (DatabaseExists row).
Qed.

Lemma checkTableExists_run (db : DB) (cmd : Command) (w : World) :
  checkTableExists db cmd w =
  (probeOutcome TableExists
     (selectTableExists (server w) (flag_table cmd)),
   withEvents w [EvSelect (QTableExists (flag_table cmd))]).
Proof.
  unfold checkTableExists, db_Select_TableExists, bind, getWorld,
    emit, ret, withEvents. simpl.
  destruct (selectTableExists (server w) (flag_table cmd))
    as [[|row rows] [e|]]; simpl; try reflexivity.
  by destruct (TableExists row).
Qed.

(** With a connection open, [readTable] is its body between the
    connection event and the deferred close. *)
Lemma readTable_connected (cmd : Command) (w : World) :
  connect (server w) "mssql" (configURL w) = None →
  readTable cmd w =
  (fst (readTableBody (mkDB (configURL w)) cmd
          (withEvents w [EvConnect "mssql" (configURL w)])),
   withEvents
     (snd (readTableBody (mkDB (configURL w)) cmd
             (withEvents w [EvConnect "mssql" (configURL w)])))
     [EvClose]).
Proof.
  intros Hc.
  unfold readTable, sqlx_Connect, viper_GetString, bind, getWorld, ret, emit.
  simpl. fold (configURL w). rewrite Hc. simpl.
  unfold defer, db_Close, emit. fold (withEvents w [EvConnect "mssql" (configURL w)]).
  by destruct (readTableBody _ _ _) as [o w1].
Qed.

(** The body of [readTable] only sends statements: whatever it returns,
    the world it leaves differs by [EvSelect] events alone. *)
Lemma readTableBody_selects (db : DB) (cmd : Command) (w : World) :
  ∃ evs, snd (readTableBody db cmd w) = withEvents w evs
         ∧ Forall (λ ev, ∃ q, ev = EvSelect q) evs.
Proof.
  unfold readTableBody, bind. rewrite checkDatabaseExists_run.
  destruct (selectDatabaseExists (server w) (flag_database cmd))
    as [[|r1 rs1] [e1|]]; simpl;
    try (eexists; split; [reflexivity | repeat constructor; eauto]).
  destruct (DatabaseExists r1); simpl;
    try (eexists; split; [reflexivity | repeat constructor; eauto]).
  rewrite checkTableExists_run. simpl.
  destruct (selectTableExists (server w) (flag_table cmd))
    as [[|r2 rs2] [e2|]]; simpl; rewrite ?withEvents_withEvents;
    try (eexists; split; [reflexivity | repeat constructor; eauto]).
  destruct (TableExists r2); simpl;
    try (eexists; split; [reflexivity | repeat constructor; eauto]).
  unfold db_Select_Columns, bind, getWorld, emit, ret. simpl.
  destruct (selectColumns (server w) (flag_database cmd) (flag_table cmd))
    as [rows [e3|]]; simpl;
    exists [EvSelect (QDatabaseExists (flag_database cmd));
            EvSelect (QTableExists (flag_table cmd));
            EvSelect (QColumns (flag_database cmd) (flag_table cmd))];
    (split; [unfold withEvents; simpl; by rewrite <- !app_assoc
            | repeat constructor; eauto]).
Qed.

(** C3. Whenever the connection opens and the database-existence probe
    answers with a first row that says the database does not exist,
    [readTable] returns the error [databaseG does not exist] (the
    DatabaseNotFound failure) and the calls it has made are exactly: the
    connection, the database probe, and the close.  Neither the table
    probe nor the column query is sent. *)
Theorem readTable_database_not_found (cmd : Command) (w : World)
    (row : DatabaseExistsRow) (rows : list DatabaseExistsRow) :
  connect (server w) "mssql" (configURL w) = None →
  selectDatabaseExists (server w) (flag_database cmd) = (row :: rows, None) →
  DatabaseExists row = false →
  readTable cmd w =
  (Return ([], Some (errors_New "databaseG does not exist")),
   withEvents w [EvConnect "mssql" (configURL w);
                 EvSelect (QDatabaseExists (flag_database cmd));
                 EvClose]).
Proof.
  intros Hc Hsel Hrow. rewrite (readTable_connected _ _ Hc).
  unfold readTableBody, bind. rewrite checkDatabaseExists_run. simpl.
  rewrite Hsel. simpl. rewrite Hrow. simpl.
  by rewrite !withEvents_withEvents.
Qed.

Lemma readTable_database_not_found_witness :
  readTable sampleCmd (sampleWorld serverNoDatabase ∅ []) =
  (Return ([], Some (errors_New "databaseG does not exist")),
   withEvents (sampleWorld serverNoDatabase ∅ [])
     [EvConnect "mssql" (configURL (sampleWorld serverNoDatabase ∅ []));
      EvSelect (QDatabaseExists "Shop");
      EvClose]).
Proof.
  apply (readTable_database_not_found sampleCmd
           (sampleWorld serverNoDatabase ∅ [])
           (mkDatabaseExistsRow false) []); reflexivity.
Defined.

(** C4. Whenever the connection opens, the database probe says the
    database exists, and the table-existence probe answers with a first
    row that says the table does not exist, [readTable] returns the
    error [table does not exist] (the TableNotFound failure) and the
    calls it has made are exactly: the connection, the two probes, and
    the close.  The column query is not sent. *)
Theorem readTable_table_not_found (cmd : Command) (w : World)
    (drow : DatabaseExistsRow) (drows : list DatabaseExistsRow)
    (trow : TableExistsRow) (trows : list TableExistsRow) :
  connect (server w) "mssql" (configURL w) = None →
  selectDatabaseExists (server w) (flag_database cmd) = (drow :: drows, None) →
  DatabaseExists drow = true →
  selectTableExists (server w) (flag_table cmd) = (trow :: trows, None) →
  TableExists trow = false →
  readTable cmd w =
  (Return ([], Some (errors_New "table does not exist")),
   withEvents w [EvConnect "mssql" (configURL w);
                 EvSelect (QDatabaseExists (flag_database cmd));
                 EvSelect (QTableExists (flag_table cmd));
                 EvClose]).
Proof.
  intros Hc Hd Hdrow Ht Htrow. rewrite (readTable_connected _ _ Hc).
  unfold readTableBody, bind. rewrite checkDatabaseExists_run. simpl.
  rewrite Hd. simpl. rewrite Hdrow. simpl.
  rewrite checkTableExists_run. simpl.
  rewrite Ht. simpl. rewrite Htrow. simpl.
  by rewrite !withEvents_withEvents.
Qed.

Lemma readTable_table_not_found_witness :
  readTable sampleCmd (sampleWorld serverNoTable ∅ []) =
  (Return ([], Some (errors_New "table does not exist")),
   withEvents (sampleWorld serverNoTable ∅ [])
     [EvConnect "mssql" (configURL (sampleWorld serverNoTable ∅ []));
      EvSelect (QDatabaseExists "Shop");
      EvSelect (QTableExists "Users");
      EvClose]).
Proof.
  apply (readTable_table_not_found sampleCmd
           (sampleWorld serverNoTable ∅ [])
           (mkDatabaseExistsRow true) []
           (mkTableExistsRow false) []); reflexivity.
Defined.

(** C8. Whenever [sqlx.Connect] succeeds, whatever the server answers
    afterwards and whether [readTable] returns rows, returns an error or
    panics, the calls it has made are: the connection, then statements
    only, then the close of the connection as the last call. *)
Theorem readTable_closes_connection (cmd : Command) (w : World) :
  connect (server w) "mssql" (configURL w) = None →
  ∃ evs,
    snd (readTable cmd w) =
      withEvents w (EvConnect "mssql" (configURL w) :: evs ++ [EvClose])
    ∧ Forall (λ ev, ∃ q, ev = EvSelect q) evs.
Proof.
  intros Hc. rewrite (readTable_connected _ _ Hc). simpl.
  destruct (readTableBody_selects (mkDB (configURL w)) cmd
              (withEvents w [EvConnect "mssql" (configURL w)]))
    as (evs & -> & Hevs).
  exists evs. split; [| exact Hevs].
  by rewrite !withEvents_withEvents.
Qed.

Lemma readTable_closes_connection_witness :
  ∃ evs,
    snd (readTable sampleCmd (sampleWorld serverUsers ∅ [])) =
      withEvents (sampleWorld serverUsers ∅ [])
        (EvConnect "mssql" (configURL (sampleWorld serverUsers ∅ []))
           :: evs ++ [EvClose])
    ∧ Forall (λ ev, ∃ q, ev = EvSelect q) evs.
Proof.
  apply (readTable_closes_connection sampleCmd
           (sampleWorld serverUsers ∅ [])).
  reflexivity.
Defined.

(** C10. Both probe functions read element 0 of the slice [db.Select]
    filled without looking at its length: each of them panics exactly
    when its statement succeeds with no row.  So they return (a value or
    an error) only under the precondition that a successful probe
    answers with at least one row. *)
Theorem probes_panic_iff_no_row (db : DB) (cmd : Command) (w : World) :
  ((∃ msg, fst (checkDatabaseExists db cmd w) = Panic msg)
   ↔ selectDatabaseExists (server w) (flag_database cmd) = ([], None))
  ∧ ((∃ msg, fst (checkTableExists db cmd w) = Panic msg)
     ↔ selectTableExists (server w) (flag_table cmd) = ([], None)).
Proof.
  rewrite checkDatabaseExists_run, checkTableExists_run. simpl. split.
  - destruct (selectDatabaseExists (server w) (flag_database cmd))
      as [[|r rs] [e|]]; simpl; split;
      try (intros [msg Hm]; discriminate Hm);
      try (intros He; discriminate He); eauto.
  - destruct (selectTableExists (server w) (flag_table cmd))
      as [[|r rs] [e|]]; simpl; split;
      try (intros [msg Hm]; discriminate Hm);
      try (intros He; discriminate He); eauto.
Qed.

(** The panic goes through [readTable]: with a server whose probes
    succeed without rows the command panics, after closing. *)
Example readTable_panics_on_no_row :
  readTable sampleCmd (sampleWorld serverNoRows ∅ []) =
  (Panic "runtime error: index out of range",
   withEvents (sampleWorld serverNoRows ∅ [])
     [EvConnect "mssql" (configURL (sampleWorld serverNoRows ∅ []));
      EvSelect (QDatabaseExists "Shop");
      EvClose]).
Proof. reflexivity. Qed.

(** * Properties of the output writer *)

Lemma os_Mkdir_exists (name : string) (n : node) (w : World) :
  files w !! name = Some n →
  os_Mkdir name w =
  (Return (Some (PathError "mkdir" name EEXIST)),
   {| viper := viper w; server := server w; files := files w;
      faults := tail (faults w);
      trace := trace w ++ [EvMkdir name (Some (PathError "mkdir" name EEXIST))]
   |}).
Proof.
  intros Hn. unfold os_Mkdir, nextFault, bind, getWorld, emit, ret. simpl.
  by rewrite Hn.
Qed.


Lemma ioutil_ReadFile_files (name : string) (w : World) :
  files (snd (ioutil_ReadFile name w)) = files w.
Proof.
  unfold ioutil_ReadFile, nextFault, bind, getWorld, emit, ret. simpl.
  by destruct (files w !! name) as [[|old]|];
    destruct (mjoin (head (faults w))).
Qed.

Section OutputWriter.

Variable strings_ToLower : string -> string.
Variable path_Join : string -> string -> string.
Variable imports_Process : string -> string -> string * option error.

(** C5. Whenever the path named as the lower-cased table name exists
    already, [writeTypes] returns the [mkdir] error EEXIST (the
    DirectoryExistsError); the only file-system call it has made is that
    [os.Mkdir], followed by the message on standard error, so no file
    is written; and the file system is as it was. *)
Theorem writeTypes_directory_exists (cmd : Command) (fileBytes : string)
    (w : World) (n : node) :
  files w !! strings_ToLower (flag_table cmd) = Some n →
  let tLower := strings_ToLower (flag_table cmd) in
  let e := PathError "mkdir" tLower EEXIST in
  let run := writeTypes strings_ToLower path_Join imports_Process
               cmd fileBytes w in
  fst run = Return (Some e)
  ∧ files (snd run) = files w
  ∧ trace (snd run) =
      (trace w ++ [EvMkdir tLower (Some e);
                   EvStderr ("While writing directory: " ++ Error e)])%list.
Proof.
  intros Hn tLower e run. subst run.
  unfold writeTypes, bind.
  rewrite (os_Mkdir_exists _ n _ Hn).
  unfold Fprintf_Stderr, emit, ret. simpl.
  by rewrite <- app_assoc.
Qed.


End OutputWriter.

Lemma writeTypes_directory_exists_witness :
  let w := sampleWorld serverUsers filesWithUsers [] in
  let e := PathError "mkdir" "users" EEXIST in
  let run := writeTypes asciiToLower joinTwo sampleImports
               sampleCmd "package users" w in
  files w !! "users" = Some Dir
  ∧ fst run = Return (Some e)
  ∧ files (snd run) = files w
  ∧ trace (snd run) =
      [EvMkdir "users" (Some e);
       EvStderr "While writing directory: mkdir users: file exists"].
Proof.
  split; [reflexivity |].
  apply (writeTypes_directory_exists asciiToLower joinTwo sampleImports
           sampleCmd "package users"
           (sampleWorld serverUsers filesWithUsers []) Dir).
  reflexivity.
Defined.


(** Once [imports.Process] has succeeded, [writeTypes] returns [nil]
    whatever the last [os.WriteFile] returns: its result is not kept. *)
Lemma writeTypes_last_write_unchecked
    (strings_ToLower : string → string)
    (path_Join : string → string → string)
    (imports_Process : string → string → string * option error)
    (cmd : Command) (fileBytes genFileBytes formatted : string)
    (werr : option error) (w w1 w2 w3 w4 : World) :
  let tLower := strings_ToLower (flag_table cmd) in
  let filePath := path_Join tLower (tLower ++ ".go") in
  os_Mkdir tLower w = (Return None, w1) →
  os_WriteFile filePath fileBytes w1 = (Return None, w2) →
  ioutil_ReadFile filePath w2 = (Return (genFileBytes, None), w3) →
  imports_Process (tLower ++ ".go") genFileBytes = (formatted, None) →
  os_WriteFile filePath formatted w3 = (Return werr, w4) →
  writeTypes strings_ToLower path_Join imports_Process cmd fileBytes w =
  (Return None, w4).
Proof.
  intros tLower filePath Hmk Hwr Hrd Hip Hlast.
  unfold writeTypes, bind. fold tLower. rewrite Hmk. cbv beta iota.
  fold filePath. rewrite Hwr. cbv beta iota. rewrite Hrd. cbv beta iota.
  rewrite Hip. cbv beta iota. by rewrite Hlast.
Qed.

(** C7 fails on the last step of [writeTypes].  In [worldDiskFull] the
    rewrite of the formatted file fails with ENOSPC and leaves the file
    empty; [writeTypes] returns [nil] all the same, and the whole command
    ends without a single message on standard error. *)
Theorem generate_drops_final_write_error :
  let e := PathError "write" "users/users.go" ENOSPC in
  let run := writeTypes asciiToLower joinTwo sampleImports
               sampleCmd "package users" worldDiskFull in
  let cmdRun := generateCmd_Run asciiToLower joinTwo None sampleExecute
                  sampleFormat sampleImports sampleCmd worldDiskFull in
  fst run = Return None
  ∧ trace (snd run) =
      [EvMkdir "users" None;
       EvWriteFile "users/users.go" "package users" None;
       EvReadFile "users/users.go" None;
       EvWriteFile "users/users.go" "package users; import time" (Some e)]
  ∧ files (snd run) !! "users/users.go" = Some (File "")
  ∧ fst cmdRun = Return tt
  ∧ trace (snd cmdRun) =
      [EvConnect "mssql" {| Scheme := "sqlserver";
                            User := ("sa", "secret");
                            Host := "localhost:1433" |};
       EvSelect (QDatabaseExists "Shop");
       EvSelect (QTableExists "Users");
       EvSelect (QColumns "Shop" "Users");
       EvClose;
       EvMkdir "users" None;
       EvWriteFile "users/users.go" "package users" None;
       EvReadFile "users/users.go" None;
       EvWriteFile "users/users.go" "package users; import time" (Some e)].
Proof. repeat split; vm_compute; reflexivity. Qed.

(** * Further properties of the schema reader *)

(** Without a connection, [readTable] reports and returns the error of
    [sqlx.Connect]; nothing is deferred yet. *)
Lemma readTable_not_connected (cmd : Command) (w : World) (e : error) :
  connect (server w) "mssql" (configURL w) = Some e →
  readTable cmd w =
  (Return ([], Some e),
   withEvents w [EvConnect "mssql" (configURL w);
                 EvStderr ("While connecting to database server: " ++ Error e)]).
Proof.
  intros Hc.
  unfold readTable, sqlx_Connect, viper_GetString, Fprintf_Stderr,
    bind, getWorld, ret, emit.
  simpl. fold (configURL w). rewrite Hc. simpl.
  unfold withEvents. simpl. by rewrite <- app_assoc.
Qed.

Lemma db_Select_Columns_run (db : DB) (database table : string)
    (w : World) :
  db_Select_Columns db database table w =
  (Return (selectColumns (server w) database table),
   withEvents w [EvSelect (QColumns database table)]).
Proof. reflexivity. Qed.

Lemma server_withEvents (w : World) (evs : list event) :
  server (withEvents w evs) = server w.
Proof. reflexivity. Qed.

(** Splits a goal about [readTable] on a connected server into the
    answers the server can give to the three statements. *)
Ltac readTable_cases cmd w :=
  unfold readTableBody, bind, ret;
  rewrite checkDatabaseExists_run, ?server_withEvents;
  destruct (selectDatabaseExists (server w) (flag_database cmd))
    as [[|dr drs] [de|]] eqn:Hdb;
  cbn [probeOutcome negb fst snd];
  [ | | | destruct (DatabaseExists dr) eqn:Hdr; cbn [negb fst snd];
          [ rewrite checkTableExists_run, ?server_withEvents;
            destruct (selectTableExists (server w) (flag_table cmd))
              as [[|tr trs] [te|]] eqn:Htb;
            cbn [probeOutcome negb fst snd];
            [ | | | destruct (TableExists tr) eqn:Htr; cbn [negb fst snd];
                    [ rewrite db_Select_Columns_run, ?server_withEvents;
                      destruct (selectColumns (server w) (flag_database cmd)
                                  (flag_table cmd))
                        as [crows [ce|]] eqn:Hcol;
                      cbn [fst snd]
                    | ] ]
          | ] ];
  rewrite ?withEvents_withEvents.

(** X2. [readTable] returns rows without an error exactly when the
    connection opens, both probes answer with a first row that says
    true, and the column query succeeds; the rows are then those of
    the column query, an empty answer included. *)
Theorem readTable_returns_rows_iff (cmd : Command) (w : World)
    (rows : list Columns) :
  fst (readTable cmd w) = Return (rows, None)
  ↔ connect (server w) "mssql" (configURL w) = None
    ∧ (∃ r rs, selectDatabaseExists (server w) (flag_database cmd)
               = (r :: rs, None) ∧ DatabaseExists r = true)
    ∧ (∃ r rs, selectTableExists (server w) (flag_table cmd)
               = (r :: rs, None) ∧ TableExists r = true)
    ∧ selectColumns (server w) (flag_database cmd) (flag_table cmd)
      = (rows, None).
Proof.
  destruct (connect (server w) "mssql" (configURL w)) as [e|] eqn:Hc.
  - rewrite (readTable_not_connected _ _ _ Hc). simpl.
    split; [discriminate | intros [? _]; discriminate].
  - rewrite (readTable_connected _ _ Hc). cbn [fst snd].
    readTable_cases cmd w;
      (split;
       [ intros H; try discriminate H
       | intros (_ & (r1 & rs1 & H1 & F1) & (r2 & rs2 & H2 & F2) & H3);
         try discriminate H1; try discriminate H2; try discriminate H3;
         try (injection H1 as -> _; congruence);
         try (injection H2 as -> _; congruence) ]).
    injection H as ->. eauto 10.
Qed.

(** X3. Whenever [readTable] returns an error, the slice it returns with
    it is nil: rows a failed column query may have left in the
    destination are not handed on. *)
Theorem readTable_error_without_rows (cmd : Command) (w : World)
    (rows : list Columns) (e : error) :
  fst (readTable cmd w) = Return (rows, Some e) → rows = [].
Proof.
  destruct (connect (server w) "mssql" (configURL w)) as [ce|] eqn:Hc.
  - rewrite (readTable_not_connected _ _ _ Hc). simpl. congruence.
  - rewrite (readTable_connected _ _ Hc). cbn [fst snd].
    readTable_cases cmd w; congruence.
Qed.

Lemma readTable_error_without_rows_witness :
  fst (readTable sampleCmd (sampleWorld serverColumnsFail ∅ [])) =
    Return ([], Some (foreignError "mssql" "Invalid object name"))
  ∧ ([] : list Columns) = [].
Proof.
  split; [reflexivity |].
  apply (readTable_error_without_rows sampleCmd
           (sampleWorld serverColumnsFail ∅ []) []
           (foreignError "mssql" "Invalid object name")).
  reflexivity.
Defined.

(** X4. The error of the first statement that fails is the error
    [readTable] returns, as it is: after the failure no further
    statement is sent, and the connection is closed. *)
Theorem readTable_statement_error (cmd : Command) (w : World) (e : error)
    (evs : list event) :
  connect (server w) "mssql" (configURL w) = None →
  (snd (selectDatabaseExists (server w) (flag_database cmd)) = Some e
   ∧ evs = [EvSelect (QDatabaseExists (flag_database cmd))])
  ∨ ((∃ r rs, selectDatabaseExists (server w) (flag_database cmd)
              = (r :: rs, None) ∧ DatabaseExists r = true)
     ∧ ((snd (selectTableExists (server w) (flag_table cmd)) = Some e
         ∧ evs = [EvSelect (QDatabaseExists (flag_database cmd));
                  EvSelect (QTableExists (flag_table cmd))])
        ∨ ((∃ r rs, selectTableExists (server w) (flag_table cmd)
                    = (r :: rs, None) ∧ TableExists r = true)
           ∧ snd (selectColumns (server w) (flag_database cmd)
                    (flag_table cmd)) = Some e
           ∧ evs = [EvSelect (QDatabaseExists (flag_database cmd));
                    EvSelect (QTableExists (flag_table cmd));
                    EvSelect (QColumns (flag_database cmd)
                                (flag_table cmd))]))) →
  readTable cmd w =
  (Return ([], Some e),
   withEvents w (EvConnect "mssql" (configURL w) :: evs ++ [EvClose])).
Proof.
  intros Hc H. rewrite (readTable_connected _ _ Hc).
  readTable_cases cmd w; rewrite ?withEvents_withEvents; simpl;
    destruct H as [[He ->] | [(r1 & rs1 & H1 & F1) [[He ->] |
                    [(r2 & rs2 & H2 & F2) [He ->]]]]];
    simpl in *; try discriminate;
    try (injection H1 as -> _; congruence);
    try (injection H2 as -> _; congruence);
    try (injection He as ->; reflexivity).
Qed.

Lemma readTable_statement_error_witness :
  readTable sampleCmd (sampleWorld serverColumnsFail ∅ []) =
  (Return ([], Some (foreignError "mssql" "Invalid object name")),
   withEvents (sampleWorld serverColumnsFail ∅ [])
     (EvConnect "mssql" (configURL (sampleWorld serverColumnsFail ∅ []))
        :: [EvSelect (QDatabaseExists "Shop");
            EvSelect (QTableExists "Users");
            EvSelect (QColumns "Shop" "Users")] ++ [EvClose])).
Proof.
  apply (readTable_statement_error sampleCmd
           (sampleWorld serverColumnsFail ∅ [])); [reflexivity |].
  right. split; [by exists (mkDatabaseExistsRow true), [] |].
  right. split; [by exists (mkTableExistsRow true), [] |].
  split; reflexivity.
Defined.

(** X5. The column query is sent exactly when the connection opens and
    both probes answer with a first row that says true; in every other
    run no event of [readTable] is a column query. *)
Theorem readTable_column_query_iff (cmd : Command) (w : World) :
  ∃ evs,
    snd (readTable cmd w) = withEvents w evs
    ∧ (existsb columnsQuery evs = true
       ↔ connect (server w) "mssql" (configURL w) = None
         ∧ (∃ r rs, selectDatabaseExists (server w) (flag_database cmd)
                    = (r :: rs, None) ∧ DatabaseExists r = true)
         ∧ (∃ r rs, selectTableExists (server w) (flag_table cmd)
                    = (r :: rs, None) ∧ TableExists r = true)).
Proof.
  destruct (connect (server w) "mssql" (configURL w)) as [ce|] eqn:Hc.
  - rewrite (readTable_not_connected _ _ _ Hc). simpl.
    eexists. split; [reflexivity |]. simpl.
    split; [discriminate | intros [? _]; discriminate].
  - rewrite (readTable_connected _ _ Hc). cbn [fst snd].
    readTable_cases cmd w; rewrite ?withEvents_withEvents;
      (eexists; split; [reflexivity |]); simpl;
      (split;
       [ intros H; try discriminate H; eauto 10
       | intros (_ & (r1 & rs1 & H1 & F1) & (r2 & rs2 & H2 & F2));
         try discriminate H1; try discriminate H2;
         try (injection H1 as -> _; congruence);
         try (injection H2 as -> _; congruence);
         try reflexivity ]).
Qed.

(** * Further properties of the output writer *)

(** The file-system calls return; they do not panic. *)
Lemma os_Mkdir_returns (name : string) (w : World) :
  ∃ r, fst (os_Mkdir name w) = Return r.
Proof.
  unfold os_Mkdir, nextFault, setFiles, bind, getWorld, emit, ret. simpl.
  destruct (files w !! name); destruct (mjoin (head (faults w)));
    simpl; eauto.
Qed.

Lemma os_WriteFile_returns (name data : string) (w : World) :
  ∃ r, fst (os_WriteFile name data w) = Return r.
Proof.
  unfold os_WriteFile, nextFault, setFiles, bind, getWorld, emit, ret. simpl.
  destruct (files w !! name) as [[|old]|];
    destruct (mjoin (head (faults w))) as [ft|]; simpl;
    try destruct (faultLeft ft); simpl; eauto.
Qed.

Lemma ioutil_ReadFile_returns (name : string) (w : World) :
  ∃ r, fst (ioutil_ReadFile name w) = Return r.
Proof.
  unfold ioutil_ReadFile, nextFault, bind, getWorld, emit, ret. simpl.
  destruct (files w !! name) as [[|old]|];
    destruct (mjoin (head (faults w))); simpl; eauto.
Qed.

(** What each call adds to the trace. *)
Lemma os_Mkdir_trace (name : string) (w w' : World) (r : option error) :
  os_Mkdir name w = (Return r, w') →
  trace w' = (trace w ++ [EvMkdir name r])%list.
Proof.
  unfold os_Mkdir, nextFault, setFiles, bind, getWorld, emit, ret. simpl.
  destruct (files w !! name); destruct (mjoin (head (faults w)));
    simpl; intros H; by inversion H.
Qed.

Lemma os_WriteFile_trace (name data : string) (w w' : World)
    (r : option error) :
  os_WriteFile name data w = (Return r, w') →
  trace w' = (trace w ++ [EvWriteFile name data r])%list.
Proof.
  unfold os_WriteFile, nextFault, setFiles, bind, getWorld, emit, ret. simpl.
  destruct (files w !! name) as [[|old]|];
    destruct (mjoin (head (faults w))) as [ft|]; simpl;
    try destruct (faultLeft ft); simpl; intros H; by inversion H.
Qed.

Lemma ioutil_ReadFile_trace (name data : string) (w w' : World)
    (r : option error) :
  ioutil_ReadFile name w = (Return (data, r), w') →
  trace w' = (trace w ++ [EvReadFile name r])%list.
Proof.
  unfold ioutil_ReadFile, nextFault, bind, getWorld, emit, ret. simpl.
  destruct (files w !! name) as [[|old]|];
    destruct (mjoin (head (faults w))); simpl; intros H; by inversion H.
Qed.

(** A directory made by [os.Mkdir] is there afterwards, and neither
    [os.WriteFile] nor [ioutil.ReadFile] removes a directory. *)
Lemma os_Mkdir_ok (name : string) (w w' : World) :
  os_Mkdir name w = (Return None, w') → files w' !! name = Some Dir.
Proof.
  unfold os_Mkdir, nextFault, setFiles, bind, getWorld, emit, ret. simpl.
  destruct (files w !! name); destruct (mjoin (head (faults w)));
    simpl; intros H; inversion H; subst; simpl.
  apply lookup_insert_eq.
Qed.

Lemma os_WriteFile_keeps_Dir (name data dir : string) (w : World) :
  files w !! dir = Some Dir →
  files (snd (os_WriteFile name data w)) !! dir = Some Dir.
Proof.
  intros Hd.
  unfold os_WriteFile, nextFault, setFiles, bind, getWorld, emit, ret. simpl.
  destruct (decide (name = dir)) as [-> | Hne].
  - by rewrite Hd.
  - destruct (files w !! name) as [[|old]|];
      destruct (mjoin (head (faults w))) as [ft|]; simpl;
      try destruct (faultLeft ft); simpl;
      rewrite ?lookup_insert_ne; done.
Qed.

(** The calls on a path that is free, with no fault scheduled. *)
Lemma os_Mkdir_fresh (name : string) (w : World)
    (fl : list (option fault)) :
  files w !! name = None → faults w = None :: fl →
  os_Mkdir name w =
  (Return None,
   mkWorld (viper w) (server w) (<[name := Dir]> (files w)) fl
     (trace w ++ [EvMkdir name None])).
Proof.
  intros Hn Hf.
  unfold os_Mkdir, nextFault, setFiles, bind, getWorld, emit, ret. simpl.
  by rewrite Hn, Hf.
Qed.

Lemma os_WriteFile_plain (name data : string) (w : World)
    (fl : list (option fault)) :
  files w !! name ≠ Some Dir → faults w = None :: fl →
  os_WriteFile name data w =
  (Return None,
   mkWorld (viper w) (server w) (<[name := File data]> (files w)) fl
     (trace w ++ [EvWriteFile name data None])).
Proof.
  intros Hn Hf.
  unfold os_WriteFile, nextFault, setFiles, bind, getWorld, emit, ret. simpl.
  rewrite Hf. simpl. by destruct (files w !! name) as [[|old]|].
Qed.

Lemma ioutil_ReadFile_plain (name data : string) (w : World)
    (fl : list (option fault)) :
  files w !! name = Some (File data) → faults w = None :: fl →
  ioutil_ReadFile name w =
  (Return (data, None),
   mkWorld (viper w) (server w) (files w) fl
     (trace w ++ [EvReadFile name None])).
Proof.
  intros Hn Hf.
  unfold ioutil_ReadFile, nextFault, bind, getWorld, emit, ret. simpl.
  by rewrite Hn, Hf.
Qed.

Ltac no_panic :=
  match goal with
  | H : os_Mkdir ?n ?w = (Panic _, _) |- _ =>
      let Hr := fresh in
      destruct (os_Mkdir_returns n w) as [? Hr];
      rewrite H in Hr; discriminate Hr
  | H : os_WriteFile ?n ?d ?w = (Panic _, _) |- _ =>
      let Hr := fresh in
      destruct (os_WriteFile_returns n d w) as [? Hr];
      rewrite H in Hr; discriminate Hr
  | H : ioutil_ReadFile ?n ?w = (Panic _, _) |- _ =>
      let Hr := fresh in
      destruct (ioutil_ReadFile_returns n w) as [? Hr];
      rewrite H in Hr; discriminate Hr
  end.

(** Splits a goal about [writeTypes] into the five ways it can end: at
    [os.Mkdir], at the first write, at the read, at [imports.Process],
    and after the last write. *)
Ltac writeTypes_cases toLower join process cmd fileBytes w :=
  unfold writeTypes, bind, Fprintf_Stderr, emit, ret;
  destruct (os_Mkdir (toLower (flag_table cmd)) w)
    as [[[e1|]|m1] w1] eqn:Hmk;
  [ | destruct (os_WriteFile
                  (join (toLower (flag_table cmd))
                     (toLower (flag_table cmd) ++ ".go")%string)
                  fileBytes w1)
        as [[[e2|]|m2] w2] eqn:Hwr;
      [ | destruct (ioutil_ReadFile
                      (join (toLower (flag_table cmd))
                         (toLower (flag_table cmd) ++ ".go")%string) w2)
            as [[[gen [e3|]]|m3] w3] eqn:Hrd;
          [ | destruct (process (toLower (flag_table cmd) ++ ".go")%string
                          gen)
                as [formatted [e4|]] eqn:Hip;
              [ | destruct (os_WriteFile
                              (join (toLower (flag_table cmd))
                                 (toLower (flag_table cmd) ++ ".go")%string)
                              formatted w3)
                    as [[r5|m5] w4] eqn:Hlast;
                  [ | no_panic ] ]
          | no_panic ]
      | no_panic ]
  | no_panic ];
  cbn [fst snd files trace].

Section OutputWriterMore.

Variable strings_ToLower : string -> string.
Variable path_Join : string -> string -> string.
Variable imports_Process : string -> string -> string * option error.

Lemma writeTypes_returns (cmd : Command) (fileBytes : string) (w : World) :
  ∃ r, fst (writeTypes strings_ToLower path_Join imports_Process
              cmd fileBytes w) = Return r.
Proof.
  writeTypes_cases strings_ToLower path_Join imports_Process cmd fileBytes w;
    eauto.
Qed.

(** On a path that exists, [writeTypes] ends at [os.Mkdir]. *)
Lemma writeTypes_on_existing (cmd : Command) (fileBytes : string)
    (w : World) (n : node) :
  files w !! strings_ToLower (flag_table cmd) = Some n →
  fst (writeTypes strings_ToLower path_Join imports_Process cmd fileBytes w)
  = Return (Some (PathError "mkdir" (strings_ToLower (flag_table cmd))
                    EEXIST)).
Proof.
  intros Hn. unfold writeTypes, bind.
  by rewrite (os_Mkdir_exists _ n _ Hn).
Qed.

(** X9. Every error [writeTypes] returns has been written to standard
    error by [writeTypes] itself, as the last thing it did, under one of
    four headings; the heading [While writing formatted file] is not
    among them. *)
Theorem writeTypes_error_is_printed (cmd : Command) (fileBytes : string)
    (w : World) (e : error) :
  fst (writeTypes strings_ToLower path_Join imports_Process cmd fileBytes w)
  = Return (Some e) →
  ∃ heading,
    heading ∈ ["While writing directory: ";
               "While writing generated code: ";
               "While opening file for imports generation: ";
               "While formatting imports: "]
    ∧ last (trace (snd (writeTypes strings_ToLower path_Join imports_Process
                          cmd fileBytes w)))
      = Some (EvStderr (heading ++ Error e)).
Proof.
  writeTypes_cases strings_ToLower path_Join imports_Process cmd fileBytes w;
    intros H; try discriminate H; injection H as ->;
    eexists; (split; [| apply last_snoc]);
    rewrite !elem_of_cons; tauto.
Qed.

End OutputWriterMore.

Lemma writeTypes_error_is_printed_witness :
  ∃ heading,
    heading ∈ ["While writing directory: ";
               "While writing generated code: ";
               "While opening file for imports generation: ";
               "While formatting imports: "]
    ∧ last (trace (snd (writeTypes asciiToLower joinTwo sampleImports
                          sampleCmd "package users"
                          (sampleWorld serverUsers filesWithUsers []))))
      = Some (EvStderr (heading ++ Error (PathError "mkdir" "users" EEXIST))).
Proof.
  apply (writeTypes_error_is_printed asciiToLower joinTwo sampleImports
           sampleCmd "package users"
           (sampleWorld serverUsers filesWithUsers [])).
  reflexivity.
Defined.

Section OutputWriterRuns.

Variable strings_ToLower : string -> string.
Variable path_Join : string -> string -> string.
Variable imports_Process : string -> string -> string * option error.

(** Once [os.Mkdir] has made the directory, it is there when
    [writeTypes] returns, however the run ends. *)
Lemma writeTypes_keeps_directory (cmd : Command) (fileBytes : string)
    (w : World) :
  fst (os_Mkdir (strings_ToLower (flag_table cmd)) w) = Return None →
  files (snd (writeTypes strings_ToLower path_Join imports_Process
                cmd fileBytes w))
    !! strings_ToLower (flag_table cmd) = Some Dir.
Proof.
  writeTypes_cases strings_ToLower path_Join imports_Process cmd fileBytes w;
    intros H; try discriminate H;
    pose proof (os_Mkdir_ok _ _ _ Hmk) as Hd1;
    pose proof (os_WriteFile_keeps_Dir
                  (path_Join (strings_ToLower (flag_table cmd))
                     (strings_ToLower (flag_table cmd) ++ ".go"))
                  fileBytes _ _ Hd1) as Hd2;
    rewrite Hwr in Hd2; cbn [snd] in Hd2; try exact Hd2.
  all: pose proof (ioutil_ReadFile_files
                     (path_Join (strings_ToLower (flag_table cmd))
                        (strings_ToLower (flag_table cmd) ++ ".go")) w2)
         as Hf3;
       rewrite Hrd in Hf3; cbn [snd] in Hf3;
       try (rewrite Hf3; exact Hd2).
  rewrite <- Hf3 in Hd2.
  pose proof (os_WriteFile_keeps_Dir
                (path_Join (strings_ToLower (flag_table cmd))
                   (strings_ToLower (flag_table cmd) ++ ".go"))
                formatted _ _ Hd2) as Hd4.
  by rewrite Hlast in Hd4.
Qed.

(** A run that returns [nil] has made the directory. *)
Lemma writeTypes_nil_made_directory (cmd : Command) (fileBytes : string)
    (w : World) :
  fst (writeTypes strings_ToLower path_Join imports_Process cmd fileBytes w)
  = Return None →
  fst (os_Mkdir (strings_ToLower (flag_table cmd)) w) = Return None.
Proof.
  writeTypes_cases strings_ToLower path_Join imports_Process cmd fileBytes w;
    intros H; try discriminate H; reflexivity.
Qed.

(** X8. [writeTypes] cleans nothing up and cannot be repeated.  After a
    run in which [os.Mkdir] succeeded (a run that returned [nil], or one
    that failed at a later step), the directory is still there, and a
    second run for the same table, whatever bytes it is given, returns
    the [mkdir] error EEXIST. *)
Theorem writeTypes_second_run_fails (cmd : Command)
    (fileBytes fileBytes' : string) (w : World) :
  fst (writeTypes strings_ToLower path_Join imports_Process cmd fileBytes w)
    = Return None
  ∨ fst (os_Mkdir (strings_ToLower (flag_table cmd)) w) = Return None →
  files (snd (writeTypes strings_ToLower path_Join imports_Process
                cmd fileBytes w))
    !! strings_ToLower (flag_table cmd) = Some Dir
  ∧ fst (writeTypes strings_ToLower path_Join imports_Process cmd fileBytes'
           (snd (writeTypes strings_ToLower path_Join imports_Process
                   cmd fileBytes w)))
    = Return (Some (PathError "mkdir" (strings_ToLower (flag_table cmd))
                      EEXIST)).
Proof.
  intros H.
  assert (Hmk : fst (os_Mkdir (strings_ToLower (flag_table cmd)) w)
                = Return None).
  { destruct H as [H | H]; [| exact H].
    by apply (writeTypes_nil_made_directory cmd fileBytes). }
  pose proof (writeTypes_keeps_directory cmd fileBytes w Hmk) as Hd.
  split; [exact Hd |].
  by apply (writeTypes_on_existing strings_ToLower path_Join
              imports_Process cmd fileBytes' _ Dir).
Qed.

(** A run of [writeTypes] on a free path with no fault. *)
Lemma writeTypes_run_free (cmd : Command) (fileBytes formatted : string)
    (w : World) (fl : list (option fault)) :
  let tLower := strings_ToLower (flag_table cmd) in
  let filePath := path_Join tLower (tLower ++ ".go") in
  files w !! tLower = None →
  filePath ≠ tLower →
  files w !! filePath ≠ Some Dir →
  faults w = None :: None :: None :: None :: fl →
  imports_Process (tLower ++ ".go") fileBytes = (formatted, None) →
  writeTypes strings_ToLower path_Join imports_Process cmd fileBytes w =
  (Return None,
   mkWorld (viper w) (server w)
     (<[filePath := File formatted]> (<[tLower := Dir]> (files w))) fl
     (trace w ++ [EvMkdir tLower None;
                  EvWriteFile filePath fileBytes None;
                  EvReadFile filePath None;
                  EvWriteFile filePath formatted None])).
Proof.
  intros tLower filePath Hfree Hne Hnd Hfl Hip.
  unfold writeTypes, bind. fold tLower.
  rewrite (os_Mkdir_fresh _ _ _ Hfree Hfl). cbv beta iota. fold filePath.
  erewrite os_WriteFile_plain; [| | reflexivity].
  2: { cbn [files]. by rewrite lookup_insert_ne. }
  cbv beta iota.
  erewrite ioutil_ReadFile_plain; [| | reflexivity].
  2: { cbn [files]. apply lookup_insert_eq. }
  cbv beta iota. rewrite Hip. cbv beta iota.
  erewrite os_WriteFile_plain; [| | reflexivity].
  2: { cbn [files]. by rewrite lookup_insert_eq. }
  unfold ret. cbn [viper server files faults trace].
  rewrite insert_insert_eq. by rewrite <- !app_assoc.
Qed.

(** X7. On a file system where the directory is not there, the file path
    is not a directory and no fault strikes the four calls, a run with
    output [formatted] from [imports.Process] returns [nil]; the bytes
    [imports.Process] was given are the bytes just written, and the file
    ends up holding [formatted] in the new directory.  Nothing else on
    the file system changes. *)
Theorem writeTypes_success (cmd : Command) (fileBytes formatted : string)
    (w : World) (fl : list (option fault)) :
  let tLower := strings_ToLower (flag_table cmd) in
  let filePath := path_Join tLower (tLower ++ ".go") in
  files w !! tLower = None →
  filePath ≠ tLower →
  files w !! filePath ≠ Some Dir →
  faults w = None :: None :: None :: None :: fl →
  imports_Process (tLower ++ ".go") fileBytes = (formatted, None) →
  writeTypes strings_ToLower path_Join imports_Process cmd fileBytes w =
  (Return None,
   mkWorld (viper w) (server w)
     (<[filePath := File formatted]> (<[tLower := Dir]> (files w))) fl
     (trace w ++ [EvMkdir tLower None;
                  EvWriteFile filePath fileBytes None;
                  EvReadFile filePath None;
                  EvWriteFile filePath formatted None])).
Proof.
  apply writeTypes_run_free.
Qed.

End OutputWriterRuns.

Lemma writeTypes_second_run_fails_witness :
  let run := writeTypes asciiToLower joinTwo sampleImports sampleCmd
               "package users" (sampleWorld serverUsers ∅ []) in
  fst run = Return None
  ∧ files (snd run) !! "users" = Some Dir
  ∧ fst (writeTypes asciiToLower joinTwo sampleImports sampleCmd
           "package users" (snd run))
    = Return (Some (PathError "mkdir" "users" EEXIST)).
Proof.
  assert (H : fst (writeTypes asciiToLower joinTwo sampleImports sampleCmd
                     "package users" (sampleWorld serverUsers ∅ []))
              = Return None) by (vm_compute; reflexivity).
  split; [exact H |].
  apply (writeTypes_second_run_fails asciiToLower joinTwo sampleImports
           sampleCmd "package users" "package users"
           (sampleWorld serverUsers ∅ [])).
  left. exact H.
Defined.

Lemma writeTypes_success_witness :
  writeTypes asciiToLower joinTwo sampleImports sampleCmd "package users"
    (sampleWorld serverUsers ∅ [None; None; None; None]) =
  (Return None,
   mkWorld sampleViper serverUsers
     (<["users/users.go" := File "package users; import time"]>
        (<["users" := Dir]> ∅)) []
     [EvMkdir "users" None;
      EvWriteFile "users/users.go" "package users" None;
      EvReadFile "users/users.go" None;
      EvWriteFile "users/users.go" "package users; import time" None]).
Proof.
  apply (writeTypes_success asciiToLower joinTwo sampleImports sampleCmd
           "package users" "package users; import time"
           (sampleWorld serverUsers ∅ [None; None; None; None]) []);
    try reflexivity; discriminate.
Defined.

(** * Properties of the command *)

(** [readTable] makes no call to the file system. *)
Lemma readTable_no_files (cmd : Command) (w : World) :
  ∃ evs, snd (readTable cmd w) = withEvents w evs
         ∧ forallb (λ ev, negb (fsEvent ev)) evs = true.
Proof.
  destruct (connect (server w) "mssql" (configURL w)) as [ce|] eqn:Hc.
  - rewrite (readTable_not_connected _ _ _ Hc).
    eexists. split; reflexivity.
  - rewrite (readTable_connected _ _ Hc). cbn [fst snd].
    readTable_cases cmd w; rewrite ?withEvents_withEvents;
      eexists; split; reflexivity.
Qed.

(** [readTable] panics exactly when it is connected and a probe it
    consults succeeds with no row. *)
Lemma readTable_panics_iff (cmd : Command) (w : World) :
  (∃ msg, fst (readTable cmd w) = Panic msg)
  ↔ connect (server w) "mssql" (configURL w) = None
    ∧ (selectDatabaseExists (server w) (flag_database cmd) = ([], None)
       ∨ ((∃ r rs, selectDatabaseExists (server w) (flag_database cmd)
                   = (r :: rs, None) ∧ DatabaseExists r = true)
          ∧ selectTableExists (server w) (flag_table cmd) = ([], None))).
Proof.
  destruct (connect (server w) "mssql" (configURL w)) as [ce|] eqn:Hc.
  - rewrite (readTable_not_connected _ _ _ Hc). cbn [fst].
    split; [intros [? H]; discriminate H | intros [? _]; discriminate].
  - rewrite (readTable_connected _ _ Hc). cbn [fst snd].
    readTable_cases cmd w;
      (split;
       [ intros [msg H]; try discriminate H; eauto 10
       | intros (_ & [H1 | [(r1 & rs1 & H1 & F1) H2]]);
         try discriminate H1; try discriminate H2;
         try (injection H1 as -> _; congruence); eauto ]).
Qed.

Section Command.

Variable strings_ToLower : string -> string.
Variable path_Join : string -> string -> string.
Variable template_ParseFS : option error.
Variable template_Execute : ParsedColumns -> string * option error.
Variable format_Source : string -> string * option error.
Variable imports_Process : string -> string -> string * option error.

(** X1. When [sqlx.Connect] fails, the command sends no statement, closes
    nothing and touches no file; the error is written to standard error
    twice, once by [readTable] and once by the command. *)
Theorem generateCmd_connect_failure (cmd : Command) (w : World) (e : error) :
  connect (server w) "mssql" (configURL w) = Some e →
  generateCmd_Run strings_ToLower path_Join template_ParseFS
    template_Execute format_Source imports_Process cmd w =
  (Return tt,
   withEvents w
     [EvConnect "mssql" (configURL w);
      EvStderr ("While connecting to database server: " ++ Error e);
      EvStderr ("While parsing database table: " ++ Error e)]).
Proof.
  intros Hc. unfold generateCmd_Run, bind.
  rewrite (readTable_not_connected _ _ _ Hc). cbv beta iota.
  unfold Fprintf_Stderr, emit, withEvents. simpl.
  by rewrite <- app_assoc.
Qed.

(** X6. The command calls the file system only after [readTable] has
    returned rows without an error and [generateTypes] has returned
    bytes without an error: in every other run none of its events is a
    file-system call, and the files are as they were. *)
Theorem generateCmd_files_only_after_generation (cmd : Command) (w : World) :
  (∃ rows bytes,
     fst (readTable cmd w) = Return (rows, None)
     ∧ generateTypes template_ParseFS template_Execute format_Source rows
       = (bytes, None))
  ∨ (∃ evs,
       snd (generateCmd_Run strings_ToLower path_Join template_ParseFS
              template_Execute format_Source imports_Process cmd w)
       = withEvents w evs
       ∧ forallb (λ ev, negb (fsEvent ev)) evs = true).
Proof.
  destruct (readTable_no_files cmd w) as (evs & Hw & Hevs).
  unfold generateCmd_Run, bind.
  destruct (readTable cmd w) as [[[rows [e|]]|msg] w1] eqn:Hrt;
    cbn [fst snd] in *; subst w1.
  - right. unfold Fprintf_Stderr, emit. cbn [snd].
    eexists. split; [apply (withEvents_withEvents w evs [_]) |].
    rewrite forallb_app, Hevs. reflexivity.
  - destruct (generateTypes template_ParseFS template_Execute format_Source
                rows) as [bytes [e|]] eqn:Hgen.
    + right. unfold Fprintf_Stderr, emit. cbn [snd].
      eexists. split; [apply (withEvents_withEvents w evs [_]) |].
      rewrite forallb_app, Hevs. reflexivity.
    + left. eauto.
  - right. eauto.
Qed.

(** X10. The command panics exactly when the connection opens and a
    probe it consults succeeds with no row: the database probe, or,
    after a database probe that says true, the table probe.  No other
    step of the command panics. *)
Theorem generateCmd_panics_iff (cmd : Command) (w : World) :
  (∃ msg, fst (generateCmd_Run strings_ToLower path_Join template_ParseFS
                 template_Execute format_Source imports_Process cmd w)
          = Panic msg)
  ↔ connect (server w) "mssql" (configURL w) = None
    ∧ (selectDatabaseExists (server w) (flag_database cmd) = ([], None)
       ∨ ((∃ r rs, selectDatabaseExists (server w) (flag_database cmd)
                   = (r :: rs, None) ∧ DatabaseExists r = true)
          ∧ selectTableExists (server w) (flag_table cmd) = ([], None))).
Proof.
  rewrite <- readTable_panics_iff.
  unfold generateCmd_Run, bind.
  destruct (readTable cmd w) as [[[rows [e|]]|msg] w1]; cbn [fst snd].
  - unfold Fprintf_Stderr, emit. cbn [fst].
    split; intros [? H]; discriminate H.
  - destruct (generateTypes template_ParseFS template_Execute format_Source
                rows) as [bytes [e|]].
    + unfold Fprintf_Stderr, emit. cbn [fst].
      split; intros [? H]; discriminate H.
    + destruct (writeTypes_returns strings_ToLower path_Join imports_Process
                  cmd bytes w1) as [r Hr].
      destruct (writeTypes strings_ToLower path_Join imports_Process
                  cmd bytes w1) as [o w2]. cbn [fst] in Hr. subst o.
      destruct r as [e|]; unfold Fprintf_Stderr, emit, ret; cbn [fst];
        split; intros [? H]; discriminate H.
  - split; intros _; eauto.
Qed.

End Command.

Lemma generateCmd_connect_failure_witness :
  generateCmd_Run asciiToLower joinTwo None sampleExecute sampleFormat
    sampleImports sampleCmd worldDown =
  (Return tt,
   withEvents worldDown
     [EvConnect "mssql" (configURL worldDown);
      EvStderr "While connecting to database server: connection refused";
      EvStderr "While parsing database table: connection refused"]).
Proof.
  apply (generateCmd_connect_failure asciiToLower joinTwo None sampleExecute
           sampleFormat sampleImports sampleCmd worldDown
           (foreignError "mssql" "connection refused")).
  reflexivity.
Defined.

(** * Further properties of parseResults and generateTypes *)

(** [parseResults] in closed form. *)
Lemma parseResults_closed_form (c : list Columns) :
  parseResults c =
  {| pcTableName := from_option TableName "" (last c);
     Attributes := loopAttr <$> c |}.
Proof.
  induction c as [|col c _] using rev_ind; [reflexivity |].
  unfold parseResults. rewrite fold_left_app. simpl. unfold loopBody.
  rewrite fold_loopBody_Attributes, last_snoc, fmap_app. reflexivity.
Qed.

Lemma loopAttr_fmap_ext (rows rows' : list Columns) :
  ColumnName <$> rows = ColumnName <$> rows' →
  (λ col, mssqlTypeMap !! DataType col) <$> rows
  = (λ col, mssqlTypeMap !! DataType col) <$> rows' →
  loopAttr <$> rows = loopAttr <$> rows'.
Proof.
  revert rows'. induction rows as [|a rows IH]; intros [|b rows'] Hn Ht;
    try discriminate; [reflexivity |].
  simpl in *. injection Hn as Hn1 Hn. injection Ht as Ht1 Ht.
  f_equal; [| by apply IH].
  unfold loopAttr. by rewrite Hn1, Ht1.
Qed.

(** X12. In the result of [parseResults] the [Type] of an attribute is
    the empty string exactly when the [DataType] of its row is none of
    the eight names of the table: no mapped name gives an empty type. *)
Theorem parseResults_empty_type_iff_unmapped (c : list Columns) (i : nat)
    (col : Columns) :
  c !! i = Some col →
  ∃ attr, Attributes (parseResults c) !! i = Some attr
          ∧ (Type_ attr = "" ↔ DataType col ∉ mssqlTypeNames).
Proof.
  intros Hi. rewrite parseResults_Attributes, list_lookup_fmap, Hi.
  eexists. split; [reflexivity |]. split.
  - intros Hty Hin. rewrite loopAttr_spec in Hty. simpl in Hty.
    unfold mssqlTypeNames in Hin. rewrite !elem_of_cons in Hin.
    destruct Hin as [H|[H|[H|[H|[H|[H|[H|[H|H]]]]]]]];
      try (rewrite H in Hty; vm_compute in Hty; discriminate Hty).
    by apply elem_of_nil in H.
  - intros Hout. unfold loopAttr.
    by rewrite (mssqlTypeMap_other _ Hout).
Qed.

Lemma parseResults_empty_type_iff_unmapped_witness :
  ∃ attr, Attributes (parseResults rowsUsers) !! 1%nat = Some attr
          ∧ (Type_ attr = "" ↔ "varchar" ∉ mssqlTypeNames).
Proof.
  apply (parseResults_empty_type_iff_unmapped rowsUsers 1
           (sampleRow "Users" "Name" 2 "varchar")).
  reflexivity.
Defined.

(** X11. The generated bytes depend on the rows only through their
    column names, the table entries of their data types, and the table
    name of the last row.  Schema, position, nullability, lengths and
    the rest of a row have no influence, and two unmapped data types
    cannot be told apart. *)
Theorem generateTypes_depends_on (template_ParseFS : option error)
    (template_Execute : ParsedColumns → string * option error)
    (format_Source : string → string * option error)
    (rows rows' : list Columns) :
  ColumnName <$> rows = ColumnName <$> rows' →
  (λ col, mssqlTypeMap !! DataType col) <$> rows
  = (λ col, mssqlTypeMap !! DataType col) <$> rows' →
  TableName <$> last rows = TableName <$> last rows' →
  generateTypes template_ParseFS template_Execute format_Source rows
  = generateTypes template_ParseFS template_Execute format_Source rows'.
Proof.
  intros Hn Ht Hl. unfold generateTypes.
  replace (parseResults rows') with (parseResults rows); [reflexivity |].
  rewrite !parseResults_closed_form. f_equal.
  - destruct (last rows), (last rows'); simpl in *; congruence.
  - by apply loopAttr_fmap_ext.
Qed.

Lemma generateTypes_depends_on_witness :
  generateTypes None sampleExecute sampleFormat [rowGeometry]
  = generateTypes None sampleExecute sampleFormat [rowXml].
Proof.
  apply (generateTypes_depends_on None sampleExecute sampleFormat
           [rowGeometry] [rowXml]); reflexivity.
Defined.

(** * The command from end to end *)

Section CommandRuns.

Variable strings_ToLower : string -> string.
Variable path_Join : string -> string -> string.
Variable template_ParseFS : option error.
Variable template_Execute : ParsedColumns -> string * option error.
Variable format_Source : string -> string * option error.
Variable imports_Process : string -> string -> string * option error.

(** X13. When [readTable] returns rows, [generateTypes] turns them into
    [bytes], [imports.Process] turns [bytes] into [formatted], and the
    file system is free and faultless as in X7, the command ends without
    a word on standard error and the file holds [formatted], that is
    the import pass applied to the formatted rendering of
    [parseResults rows]. *)
Theorem generateCmd_success (cmd : Command) (w w1 : World)
    (rows : list Columns) (bytes formatted : string)
    (fl : list (option fault)) :
  let tLower := strings_ToLower (flag_table cmd) in
  let filePath := path_Join tLower (tLower ++ ".go") in
  readTable cmd w = (Return (rows, None), w1) →
  generateTypes template_ParseFS template_Execute format_Source rows
    = (bytes, None) →
  files w !! tLower = None →
  filePath ≠ tLower →
  files w !! filePath ≠ Some Dir →
  faults w = None :: None :: None :: None :: fl →
  imports_Process (tLower ++ ".go") bytes = (formatted, None) →
  generateCmd_Run strings_ToLower path_Join template_ParseFS
    template_Execute format_Source imports_Process cmd w =
  (Return tt,
   mkWorld (viper w) (server w)
     (<[filePath := File formatted]> (<[tLower := Dir]> (files w))) fl
     (trace w1 ++ [EvMkdir tLower None;
                   EvWriteFile filePath bytes None;
                   EvReadFile filePath None;
                   EvWriteFile filePath formatted None])).
Proof.
  intros tLower filePath Hrt Hgen Hfree Hne Hnd Hfl Hip.
  destruct (readTable_no_files cmd w) as (evs & Hw & _).
  rewrite Hrt in Hw. cbn [snd] in Hw. subst w1.
  unfold generateCmd_Run, bind. rewrite Hrt, Hgen. cbv beta iota.
  by rewrite (writeTypes_run_free strings_ToLower path_Join imports_Process
                cmd bytes formatted (withEvents w evs) fl
                Hfree Hne Hnd Hfl Hip).
Qed.

(** What [writeTypes] adds to the trace, and when it prints. *)
Lemma writeTypes_trace (cmd : Command) (fileBytes : string)
    (w : World) :
  ∃ evs,
    trace (snd (writeTypes strings_ToLower path_Join imports_Process
                  cmd fileBytes w)) = (trace w ++ evs)%list
    ∧ (existsb stderrEvent evs = false
       ↔ fst (writeTypes strings_ToLower path_Join imports_Process
                cmd fileBytes w) = Return None).
Proof.
  writeTypes_cases strings_ToLower path_Join imports_Process cmd fileBytes w;
    try (rewrite (os_WriteFile_trace _ _ _ _ _ Hlast));
    try (rewrite (ioutil_ReadFile_trace _ _ _ _ _ Hrd));
    try (rewrite (os_WriteFile_trace _ _ _ _ _ Hwr));
    rewrite (os_Mkdir_trace _ _ _ _ Hmk);
    rewrite <- ?app_assoc;
    (eexists; split; [reflexivity |]); simpl;
    split; intros H; try discriminate H; reflexivity.
Qed.

(** X14. [writeTypes] writes to standard error exactly when it returns
    an error: a run that returns [nil] has printed nothing, and a run
    that returns an error has printed. *)
Theorem writeTypes_silent_iff_nil (cmd : Command) (fileBytes : string)
    (w : World) :
  ∃ evs,
    trace (snd (writeTypes strings_ToLower path_Join imports_Process
                  cmd fileBytes w)) = (trace w ++ evs)%list
    ∧ (existsb stderrEvent evs = false
       ↔ fst (writeTypes strings_ToLower path_Join imports_Process
                cmd fileBytes w) = Return None).
Proof.
  apply writeTypes_trace.
Qed.

(** [readTable] prints nothing when it returns rows. *)
Lemma readTable_trace_silent (cmd : Command) (w : World) :
  ∃ evs, snd (readTable cmd w) = withEvents w evs
         ∧ (∀ rows, fst (readTable cmd w) = Return (rows, None) →
                    existsb stderrEvent evs = false).
Proof.
  destruct (connect (server w) "mssql" (configURL w)) as [ce|] eqn:Hc.
  - rewrite (readTable_not_connected _ _ _ Hc).
    eexists. split; [reflexivity |]. intros rows H. discriminate H.
  - rewrite (readTable_connected _ _ Hc). cbn [fst snd].
    readTable_cases cmd w; rewrite ?withEvents_withEvents;
      eexists; (split; [reflexivity |]); intros rows H;
      try discriminate H; reflexivity.
Qed.

Lemma newEvents_app (w w' : World) (evs : list event) :
  trace w' = (trace w ++ evs)%list → newEvents w w' = evs.
Proof. intros H. unfold newEvents. rewrite H. apply drop_app_length. Qed.

(** X15. The command returns without a word on standard error exactly
    when all three phases have returned without an error: [readTable]
    rows, [generateTypes] bytes, and [writeTypes] [nil].  Every error a
    phase returns is reported. *)
Theorem generateCmd_silent_iff (cmd : Command) (w : World) :
  fst (generateCmd_Run strings_ToLower path_Join template_ParseFS
         template_Execute format_Source imports_Process cmd w) = Return tt
  ∧ existsb stderrEvent
      (newEvents w
         (snd (generateCmd_Run strings_ToLower path_Join template_ParseFS
                 template_Execute format_Source imports_Process cmd w)))
    = false
  ↔ ∃ rows bytes,
      fst (readTable cmd w) = Return (rows, None)
      ∧ generateTypes template_ParseFS template_Execute format_Source rows
        = (bytes, None)
      ∧ fst (writeTypes strings_ToLower path_Join imports_Process cmd bytes
               (snd (readTable cmd w))) = Return None.
Proof.
  destruct (readTable_trace_silent cmd w) as (evs & Hw & Hsilent).
  unfold generateCmd_Run, bind.
  destruct (readTable cmd w) as [[[rows [e|]]|msg] w1] eqn:Hrt;
    cbn [fst snd] in *; subst w1.
  - unfold Fprintf_Stderr, emit. cbn [fst snd].
    rewrite (newEvents_app w _ (evs ++ [EvStderr _]))
      by (simpl; by rewrite app_assoc).
    rewrite existsb_app. simpl. rewrite orb_true_r.
    split; [intros [_ H]; discriminate H
           | intros (? & ? & H & _); discriminate H].
  - destruct (generateTypes template_ParseFS template_Execute format_Source
                rows) as [bytes [e|]] eqn:Hgen.
    + unfold Fprintf_Stderr, emit. cbn [fst snd].
      rewrite (newEvents_app w _ (evs ++ [EvStderr _]))
        by (simpl; by rewrite app_assoc).
      rewrite existsb_app. simpl. rewrite orb_true_r.
      split; [intros [_ H]; discriminate H |].
      intros (rows' & bytes' & H & Hg & _).
      injection H as <-. rewrite Hgen in Hg. discriminate Hg.
    + destruct (writeTypes_trace cmd bytes (withEvents w evs))
        as (evs2 & Ht & Hiff).
      destruct (writeTypes strings_ToLower path_Join imports_Process
                  cmd bytes (withEvents w evs)) as [[[e|]|m] w2] eqn:Hrun;
        cbn [fst snd] in *.
      * unfold Fprintf_Stderr, emit. cbn [fst snd].
        rewrite (newEvents_app w _ ((evs ++ evs2) ++ [EvStderr _]))
          by (simpl; rewrite Ht; simpl; by rewrite !app_assoc).
        rewrite existsb_app. simpl. rewrite orb_true_r.
        split; [intros [_ H]; discriminate H |].
        intros (rows' & bytes' & H & Hg & Hwt).
        injection H as <-. rewrite Hgen in Hg. injection Hg as <-.
        rewrite Hrun in Hwt. discriminate Hwt.
      * unfold ret. cbn [fst snd].
        rewrite (newEvents_app w _ (evs ++ evs2))
          by (rewrite Ht; simpl; by rewrite app_assoc).
        rewrite existsb_app, (Hsilent rows eq_refl).
        rewrite (proj2 Hiff eq_refl). simpl.
        split; [intros _ | done].
        exists rows, bytes. by rewrite Hrun.
      * split; [intros [H _]; discriminate H |].
        intros (rows' & bytes' & H & Hg & Hwt).
        injection H as <-. rewrite Hgen in Hg. injection Hg as <-.
        rewrite Hrun in Hwt. discriminate Hwt.
  - split; [intros [H _]; discriminate H
           | intros (? & ? & H & _); discriminate H].
Qed.

End CommandRuns.

Lemma generateCmd_success_witness :
  generateCmd_Run asciiToLower joinTwo None sampleExecute sampleFormat
    sampleImports sampleCmd
    (sampleWorld serverUsers ∅ [None; None; None; None]) =
  (Return tt,
   mkWorld sampleViper serverUsers
     (<["users/users.go" := File "package users; import time"]>
        (<["users" := Dir]> ∅)) []
     (trace (snd (readTable sampleCmd
                    (sampleWorld serverUsers ∅ [None; None; None; None])))
        ++ [EvMkdir "users" None;
            EvWriteFile "users/users.go" "package users" None;
            EvReadFile "users/users.go" None;
            EvWriteFile "users/users.go" "package users; import time"
              None])).
Proof.
  apply (generateCmd_success asciiToLower joinTwo None sampleExecute
           sampleFormat sampleImports sampleCmd
           (sampleWorld serverUsers ∅ [None; None; None; None])
           (snd (readTable sampleCmd
                   (sampleWorld serverUsers ∅ [None; None; None; None])))
           rowsUsers "package users" "package users; import time" []);
    try (vm_compute; reflexivity); discriminate.
Defined.
